(** * cf_step: the [Step] training engine of nbs/step.ipynb

    A shallow embedding of the class [Step] (incremental and batch training of
    a recommender, top-k prediction, persistence of the parameters) and of the
    part of the tensor library its methods rely on.

    - Real numbers held by tensors are exact rationals ([Qc]); rounding is
      outside the model.
    - A Python object that the methods mutate is a record held in the state
      of a state-and-exception monad; an exception leaves the mutations done
      before it in place, as in Python.
    - The collaborators supplied by the caller (the network's forward pass,
      the objective, the optimizer's update rule, the confidence function)
      are function-valued fields of the objects that carry them. *)

From Stdlib Require Import ZArith QArith Qcanon Lia List Bool.
From stdpp Require Import gmap strings list fin_maps.

(** ** Exceptions and results *)

(** The exceptions of Python and of the tensor library that the methods can
    raise, followed by the error names of the specification's taxonomy; no
    statement of the source raises one of the latter. *)
Inductive exn : Type :=
  | IndexError
  | AttributeError
  | TypeError
  | AssertionError
  | RuntimeError
  | FileNotFoundError
  | MissingEmbeddingError
  | MalformedBatchError
  | UnknownUserError.

Inductive result (A : Type) : Type :=
  | Ok (a : A)
  | Raise (e : exn).
Arguments Ok {A} a.
Arguments Raise {A} e.

(** ** Tensors *)

Definition R : Type := Qc.

(** A tensor outside the autograd graph: 0-dimensional or 1-dimensional. *)
Inductive Tensor : Type :=
  | Scalar (x : R)
  | Vector (xs : list R).

(** A 2-dimensional tensor of shape [length rows, ncols]. *)
Record Matrix : Type := mkMatrix {
  ncols : nat;
  rows : list (list R)
}.

(** The gradient of a value with respect to all the parameters of the
    model, flattened; the empty list is the cleared gradient. *)
Definition Grad : Type := list R.

Fixpoint gadd (g h : Grad) : Grad :=
  match g, h with
  | [], _ => h
  | _, [] => g
  | x :: g', y :: h' => (x + y)%Qc :: gadd g' h'
  end.

(** An element of a tensor that is attached to the graph: its value and the
    gradient that a backward pass from it would deposit on the parameters. *)
Record Dual : Type := mkDual {
  val : R;
  der : Grad
}.

Inductive GTensor : Type :=
  | GScalar (d : Dual)
  | GVector (ds : list Dual).

Definition elements (t : GTensor) : list Dual :=
  match t with
  | GScalar d => [d]
  | GVector ds => ds
  end.

Definition numel (t : GTensor) : nat := length (elements t).

Definition dzero : Dual := mkDual 0%Qc [].

Definition dadd (a b : Dual) : Dual :=
  mkDual (val a + val b)%Qc (gadd (der a) (der b)).

Definition ddiv (a : Dual) (n : R) : Dual :=
  mkDual (val a / n)%Qc (List.map (fun x => (x / n)%Qc) (der a)).

Definition dscale (c : R) (a : Dual) : Dual :=
  mkDual (c * val a)%Qc (List.map (fun x => (c * x)%Qc) (der a)).

Definition dsum (ds : list Dual) : Dual := fold_right dadd dzero ds.

Definition Qc_of_nat (n : nat) : R := Q2Qc (inject_Z (Z.of_nat n)).

(** [t.mean()]: the sum of the elements over their number, as a
    0-dimensional tensor (of an empty tensor the library makes nan, which
    [Qc] has not: there the quotient is 0). *)
Definition mean (t : GTensor) : GTensor :=
  GScalar (ddiv (dsum (elements t)) (Qc_of_nat (numel t))).

(** [features[:, j]]: column [j] of a 2-dimensional tensor. *)
Definition column (features : Matrix) (j : nat) : result Tensor :=
  if j <? ncols features
  then Ok (Vector (List.map (fun r => nth j r 0%Qc) (rows features)))
  else Raise IndexError.

(** ** The objects bound by the engine *)

(** What an attribute of a Python object can be here: not there at all,
    there and [None], or there with a value. *)
Inductive attr (A : Type) : Type :=
  | Missing
  | IsNone
  | Has (a : A).
Arguments Missing {A}.
Arguments IsNone {A}.
Arguments Has {A} a.

(** [torch.nn.Embedding]: a table of [length weight] vectors of dimension
    [embedding_dim]. *)
Record Embedding : Type := mkEmbedding {
  embedding_dim : nat;
  weight : list (list R)
}.

Definition num_embeddings (e : Embedding) : nat := length (weight e).

(** The learnable state of the model: the two tables and whatever other
    parameters the architecture has. *)
Record Parameters : Type := mkParameters {
  p_user : attr Embedding;
  p_item : attr Embedding;
  p_extra : list R
}.

(** [model : torch.nn.Module]. [forward] is the architecture: from the
    parameters, the mode and the two id tensors to the predictions. [grad]
    is the [.grad] accumulated on the parameters. *)
Record Model : Type := mkModel {
  user_embeddings : attr Embedding;
  item_embeddings : attr Embedding;
  extra : list R;
  training : bool;
  grad : Grad;
  forward : Parameters -> bool -> Tensor -> Tensor -> result GTensor
}.

Definition parameters (m : Model) : Parameters :=
  mkParameters (user_embeddings m) (item_embeddings m) (extra m).

Definition set_parameters (m : Model) (p : Parameters) : Model :=
  mkModel (p_user p) (p_item p) (p_extra p) (training m) (grad m) (forward m).

Definition set_training (m : Model) (b : bool) : Model :=
  mkModel (user_embeddings m) (item_embeddings m) (extra m) b (grad m)
          (forward m).

Definition set_grad (m : Model) (g : Grad) : Model :=
  mkModel (user_embeddings m) (item_embeddings m) (extra m) (training m) g
          (forward m).

(** [objective : Callable]. [weight] is the attribute of that name: [None]
    when the object has no such attribute, [Some o] when it has one, holding
    Python's [None] ([o = None]) or a tensor. [criterion] is the call. *)
Record Objective : Type := mkObjective {
  weight_slot : option (option Tensor);
  criterion : option (option Tensor) -> GTensor -> Tensor -> result GTensor
}.

Definition hasattr_weight (o : Objective) : bool :=
  match weight_slot o with Some _ => true | None => false end.

Definition set_weight (o : Objective) (w : Tensor) : Objective :=
  mkObjective (Some (Some w)) (criterion o).

(** [optimizer]: its internal buffers and its two methods. [update] is
    [step()]: from the buffers, the parameters and their gradient to how the
    call ends and to the buffers and parameters it leaves (a call that
    raises may have changed them). [zero_grad] is [zero_grad()]: from the
    accumulated gradient to how the call ends and to the gradient it
    leaves. *)
Record Optimizer : Type := mkOptimizer {
  opt_state : list R;
  update : list R -> Parameters -> Grad -> result unit * (list R * Parameters);
  zero_grad : Grad -> result unit * Grad
}.

Definition set_opt_state (o : Optimizer) (s : list R) : Optimizer :=
  mkOptimizer s (update o) (zero_grad o).

(** The instance attributes of [Step]. *)
Record Step : Type := mkStep {
  model : Model;
  objective : Objective;
  optimizer : Optimizer;
  conf_func : Tensor -> result Tensor;
  device : string
}.

Definition set_model (e : Step) (m : Model) : Step :=
  mkStep m (objective e) (optimizer e) (conf_func e) (device e).

Definition set_objective (e : Step) (o : Objective) : Step :=
  mkStep (model e) o (optimizer e) (conf_func e) (device e).

Definition set_optimizer (e : Step) (o : Optimizer) : Step :=
  mkStep (model e) (objective e) o (conf_func e) (device e).

(** What [torch.save] writes for [model.state_dict()]: the tensors of the
    parameters that exist. *)
Record StateDict : Type := mkStateDict {
  sd_user : option Embedding;
  sd_item : option Embedding;
  sd_extra : list R
}.

(** The calls to the collaborators, in the order they are made (ghost
    state: nothing reads it). *)
Inductive Event : Type :=
  | EvForward (users items : Tensor)
  | EvBackward
  | EvOptStep
  | EvZeroGrad.

(** The state the methods run in: the engine, the files written by [save],
    and the ghost trace. *)
Record World : Type := mkWorld {
  self : Step;
  disk : gmap string StateDict;
  trace : list Event
}.

Definition set_self (w : World) (e : Step) : World :=
  mkWorld e (disk w) (trace w).

Definition set_disk (w : World) (d : gmap string StateDict) : World :=
  mkWorld (self w) d (trace w).

Definition emit (w : World) (ev : Event) : World :=
  mkWorld (self w) (disk w) (trace w ++ [ev]).

(** ** The monad of methods *)

Definition M (A : Type) : Type := World -> result A * World.

Definition ret {A} (a : A) : M A := fun w => (Ok a, w).

Definition raise {A} (e : exn) : M A := fun w => (Raise e, w).

Definition bind {A B} (m : M A) (f : A -> M B) : M B :=
  fun w =>
    match m w with
    | (Ok a, w') => f a w'
    | (Raise e, w') => (Raise e, w')
    end.

Definition lift {A} (r : result A) : M A := fun w => (r, w).

Declare Scope step_scope.
Delimit Scope step_scope with step.
Notation "x <- m ;; k" := (bind m (fun x => k))
  (at level 100, m at next level, right associativity) : step_scope.
Notation "m ;;; k" := (bind m (fun _ => k))
  (at level 100, right associativity) : step_scope.
Open Scope step_scope.

Definition get_self : M Step := fun w => (Ok (self w), w).

Definition put_self (e : Step) : M unit := fun w => (Ok tt, set_self w e).

Definition log (ev : Event) : M unit := fun w => (Ok tt, emit w ev).

Fixpoint for_each {A} (body : A -> M unit) (l : list A) : M unit :=
  match l with
  | [] => ret tt
  | x :: l' => body x ;;; for_each body l'
  end.

Definition modify_model (f : Model -> Model) : M unit :=
  fun w => (Ok tt, set_self w (set_model (self w) (f (model (self w))))).

(** ** The tensor library's environment *)

(** What the library leaves to the installation: which device strings name a
    device that can be used, the order [argsort] returns (the library does
    not fix the order of equal elements), which file a path string names
    (two strings can name one file) and which paths can be written to. *)
Class Runtime : Type := mkRuntime {
  available : string -> bool;
  argsort : list R -> list nat;
  file_of : string -> string;
  writable : string -> bool
}.

(** An index tensor: 0-dimensional or 1-dimensional. *)
Inductive ITensor : Type :=
  | IScalar (i : nat)
  | IVector (ixs : list nat).

Definition dot (a b : list R) : R :=
  fold_right Qcplus 0%Qc (List.map (fun p => (fst p * snd p)%Qc) (combine a b)).

(** [emb(user)] for a 1-element id tensor [user]: row [user] of the table,
    of shape [1, embedding_dim]. *)
Definition embedding_lookup (emb : Embedding) (user : Z) : result (list R) :=
  if (0 <=? user)%Z && (user <? Z.of_nat (num_embeddings emb))%Z
  then Ok (nth (Z.to_nat user) (weight emb) [])
  else Raise IndexError.

(** [self.user_embeddings(user)]: the attribute, then the call. *)
Definition call_embedding (a : attr Embedding) (user : Z)
  : result (nat * list R) :=
  match a with
  | Missing => Raise AttributeError
  | IsNone => Raise TypeError
  | Has emb =>
      match embedding_lookup emb user with
      | Ok row => Ok (embedding_dim emb, row)
      | Raise e => Raise e
      end
  end.

(** [self.item_embeddings.weight]. *)
Definition get_weight (a : attr Embedding) : result Matrix :=
  match a with
  | Missing => Raise AttributeError
  | IsNone => Raise AttributeError
  | Has emb => Ok (mkMatrix (embedding_dim emb) (weight emb))
  end.

(** [items @ u.transpose(0, 1)] for [items] of shape [n, d] and [u] of shape
    [1, d']: the [n] dot products, of shape [n, 1]; the inner dimensions have
    to agree. *)
Definition matmul_transpose (items : Matrix) (u : nat * list R)
  : result (list R) :=
  if ncols items =? fst u
  then Ok (List.map (fun row => dot row (snd u)) (rows items))
  else Raise RuntimeError.

(** [score.squeeze()] for [score] of shape [n, 1]: every dimension of size 1
    goes, so a single score becomes 0-dimensional. *)
Definition squeeze (score : list R) : Tensor :=
  match score with
  | [x] => Scalar x
  | _ => Vector score
  end.

Definition tensor_argsort `{Runtime} (t : Tensor) : ITensor :=
  match t with
  | Scalar _ => IScalar 0
  | Vector xs => IVector (argsort xs)
  end.

(** [t[start:]]: Python's slice; a 0-dimensional tensor cannot be sliced. *)
Definition slice_from (t : ITensor) (start : Z) : result (list nat) :=
  match t with
  | IScalar _ => Raise IndexError
  | IVector ixs =>
      let n := Z.of_nat (length ixs) in
      let start := if (start <? 0)%Z then (start + n)%Z else start in
      let start := Z.max 0 (Z.min start n) in
      Ok (skipn (Z.to_nat start) ixs)
  end.

(** Truth value of an attribute in [assert]: reading a missing attribute
    raises, [None] is false, a module is true. *)
Definition truth (a : attr Embedding) : result bool :=
  match a with
  | Missing => Raise AttributeError
  | IsNone => Ok false
  | Has _ => Ok true
  end.

Definition py_assert (r : result bool) : result unit :=
  match r with
  | Ok true => Ok tt
  | Ok false => Raise AssertionError
  | Raise e => Raise e
  end.

Definition attr_to_option {A} (a : attr A) : option A :=
  match a with
  | Has x => Some x
  | _ => None
  end.

(** [model.state_dict()]. *)
Definition state_dict (m : Model) : StateDict :=
  mkStateDict (attr_to_option (user_embeddings m))
              (attr_to_option (item_embeddings m))
              (extra m).

(** [torch.save(sd, path)]: the file that [path] names is written, or the
    call raises when the path cannot be written to. [disk] is keyed by
    files, not by path strings. *)
Definition torch_save `{Runtime} (sd : StateDict) (path : string) : M unit :=
  fun w =>
    if writable path
    then (Ok tt, set_disk w (<[file_of path := sd]> (disk w)))
    else (Raise RuntimeError, w).

(** [torch.load(path)]. *)
Definition torch_load `{Runtime} (path : string) : M StateDict :=
  fun w =>
    match disk w !! file_of path with
    | Some sd => (Ok sd, w)
    | None => (Raise FileNotFoundError, w)
    end.

Definition same_shape (a b : Embedding) : bool :=
  (num_embeddings a =? num_embeddings b) && (embedding_dim a =? embedding_dim b).

(** One table of [load_state_dict]: the stored tensor is copied into the
    parameter when the key is present on both sides with the same shape; the
    boolean is false on a missing key, on a shape mismatch and on a key
    stored for a table the model has no attribute for. A stored key for an
    attribute that is [None] is passed over: the name is registered, and
    there is no module to load into. *)
Definition load_table (cur : attr Embedding) (src : option Embedding)
  : attr Embedding * bool :=
  match cur, src with
  | Has c, Some s =>
      if same_shape c s
      then (Has (mkEmbedding (embedding_dim c) (weight s)), true)
      else (cur, false)
  | Has _, None => (cur, false)
  | Missing, Some _ => (cur, false)
  | IsNone, Some _ => (cur, true)
  | _, None => (cur, true)
  end.

Definition load_extra (cur src : list R) : list R * bool :=
  if length cur =? length src then (src, true) else (cur, false).

(** [model.load_state_dict(sd)] (strict): every parameter that matches is
    copied, and the errors collected on the way are raised at the end. *)
Definition load_state_dict (sd : StateDict) : M unit :=
  fun w =>
    let m := model (self w) in
    let '(u, oku) := load_table (user_embeddings m) (sd_user sd) in
    let '(i, oki) := load_table (item_embeddings m) (sd_item sd) in
    let '(x, okx) := load_extra (extra m) (sd_extra sd) in
    let w' := set_self w (set_model (self w)
                 (set_parameters m (mkParameters u i x))) in
    if oku && oki && okx then (Ok tt, w') else (Raise RuntimeError, w').

(** ** The methods of [Step] *)

Section Methods.
Context `{RT : Runtime}.

(** [x.to(self.device)]. *)
Definition to_device {A} (x : A) : M A :=
  fun w => if available (device (self w)) then (Ok x, w)
           else (Raise RuntimeError, w).

(** [x.to(self.device)] for an argument whose default is [None]. *)
Definition to_device_opt (x : option Tensor) : M Tensor :=
  match x with
  | None => raise AttributeError
  | Some t => to_device t
  end.

Definition default_conf_func : Tensor -> result Tensor :=
  fun _ => Ok (Scalar 1%Qc).

Definition default_device : string := "cpu".

(** [Step.__init__]. *)
Definition init (model : Model) (objective : Objective)
    (optimizer : Optimizer) (conf_func : Tensor -> result Tensor)
    (device : string)
  : result Step :=
  if available device then
    let self := mkStep model objective optimizer conf_func device in
    match py_assert (truth (user_embeddings model)) with
    | Raise e => Raise e
    | Ok _ =>
        match py_assert (truth (item_embeddings model)) with
        | Raise e => Raise e
        | Ok _ => Ok self
        end
    end
  else Raise RuntimeError.

Definition model_train : M unit := modify_model (fun m => set_training m true).

Definition model_eval : M unit := modify_model (fun m => set_training m false).

(** [self.model(users, items)]. *)
Definition call_model (users items : Tensor) : M GTensor :=
  log (EvForward users items) ;;;
  e <- get_self ;;
  lift (forward (model e) (parameters (model e)) (training (model e))
                users items).

(** [self.conf_func(rtngs)]. *)
Definition call_conf (rtngs : Tensor) : M Tensor :=
  e <- get_self ;;
  lift (conf_func e rtngs).

(** [if hasattr(self.objective, 'weight'): self.objective.weight = confs]. *)
Definition inject_weight (confs : Tensor) : M unit :=
  e <- get_self ;;
  if hasattr_weight (objective e)
  then put_self (set_objective e (set_weight (objective e) confs))
  else ret tt.

(** [self.objective(preds, prefs)]. *)
Definition call_objective (preds : GTensor) (prefs : Tensor) : M GTensor :=
  e <- get_self ;;
  lift (criterion (objective e) (weight_slot (objective e)) preds prefs).

(** [loss.backward()]: only a tensor of one element has an implicit
    gradient; its gradient is added to the one accumulated so far. *)
Definition backward (loss : GTensor) : M unit :=
  match elements loss with
  | [d] =>
      log EvBackward ;;;
      modify_model (fun m => set_grad m (gadd (grad m) (der d)))
  | _ => raise RuntimeError
  end.

(** [self.optimizer.step()]: what the method leaves is in place whether it
    returns or raises. *)
Definition optimizer_step : M unit :=
  log EvOptStep ;;;
  e <- get_self ;;
  let '(r, (s, p)) := update (optimizer e) (opt_state (optimizer e))
                             (parameters (model e)) (grad (model e)) in
  put_self (set_optimizer (set_model e (set_parameters (model e) p))
                          (set_opt_state (optimizer e) s)) ;;;
  lift r.

(** [self.optimizer.zero_grad()]. *)
Definition optimizer_zero_grad : M unit :=
  log EvZeroGrad ;;;
  e <- get_self ;;
  let '(r, g) := zero_grad (optimizer e) (grad (model e)) in
  modify_model (fun m => set_grad m g) ;;;
  lift r.

(** The body of the inner loop of [batch_fit]; the progress bar has no
    effect on the state. *)
Definition fit_batch (batch : Matrix * Tensor) : M unit :=
  let '(features, preferences) := batch in
  users <- (c <- lift (column features 0) ;; to_device c) ;;
  items <- (c <- lift (column features 1) ;; to_device c) ;;
  rtngs <- (c <- lift (column features 2) ;; to_device c) ;;
  prefs <- to_device preferences ;;
  preds <- call_model users items ;;
  confs <- call_conf rtngs ;;
  inject_weight confs ;;;
  loss <- call_objective preds prefs ;;
  let loss := mean loss in
  backward loss ;;;
  optimizer_step ;;;
  optimizer_zero_grad.

(** [range(epochs)]. *)
Definition range (epochs : Z) : list nat := seq 0 (Z.to_nat epochs).

(** [Step.batch_fit]; [data_loader] is the sequence of batches that one
    iteration over the loader yields. *)
Definition batch_fit (data_loader : list (Matrix * Tensor)) (epochs : Z)
  : M unit :=
  model_train ;;;
  for_each (fun epoch => for_each fit_batch data_loader) (range epochs).

(** [Step.step]. *)
Definition step (user item : Tensor) (rating preference : option Tensor)
  : M unit :=
  model_train ;;;
  user <- to_device user ;;
  item <- to_device item ;;
  rtng <- to_device_opt rating ;;
  pref <- to_device_opt preference ;;
  pred <- call_model user item ;;
  conf <- call_conf rtng ;;
  inject_weight conf ;;;
  loss <- call_objective pred pref ;;
  backward loss ;;;
  optimizer_step ;;;
  optimizer_zero_grad.

(** [Step.predict], for a [user] tensor holding the single id [user]. *)
Definition predict (user : Z) (k : Z) : M (list nat) :=
  model_eval ;;;
  user <- to_device user ;;
  e <- get_self ;;
  user_embedding <- lift (call_embedding (user_embeddings (model e)) user) ;;
  item_embeddings <- lift (get_weight (item_embeddings (model e))) ;;
  score <- lift (matmul_transpose item_embeddings user_embedding) ;;
  lift (slice_from (tensor_argsort (squeeze score)) (- k)).

(** [Step.save]. *)
Definition save (path : string) : M unit :=
  e <- get_self ;;
  torch_save (state_dict (model e)) path.

(** [Step.load]. *)
Definition load (path : string) : M unit :=
  sd <- torch_load path ;;
  load_state_dict sd.

End Methods.

(** ** Collaborators to run the engine on *)

(** A stable argsort by insertion: index [i] goes after every index already
    placed whose score is at most its own. *)
Fixpoint insert_index (xs : list R) (i : nat) (l : list nat) : list nat :=
  match l with
  | [] => [i]
  | j :: l' =>
      if Qle_bool (nth j xs 0%Qc) (nth i xs 0%Qc)
      then j :: insert_index xs i l'
      else i :: l
  end.

Definition stable_argsort (xs : list R) : list nat :=
  fold_left (fun acc i => insert_index xs i acc) (seq 0 (length xs)) [].

(** A path with a leading "./" names the file the rest of it names. *)
Definition strip_dot_slash (p : string) : string :=
  if String.prefix "./" p
  then String.substring 2 (String.length p - 2) p
  else p.

(** A runtime with the one device "cpu", in which the paths under
    "/readonly/" cannot be written to. *)
Definition cpu_runtime : Runtime :=
  mkRuntime (fun d => String.eqb d "cpu") stable_argsort strip_dot_slash
            (fun p => negb (String.prefix "/readonly/" p)).

(** What it is for [p] to be an answer of [argsort] on [xs]: the indices
    [0 .. length xs - 1], each once, with scores in ascending order. *)
Fixpoint ascending (xs : list R) (p : list nat) : bool :=
  match p with
  | i :: ((j :: _) as p') =>
      Qle_bool (nth i xs 0%Qc) (nth j xs 0%Qc) && ascending xs p'
  | _ => true
  end.

Definition is_argsort (xs : list R) (p : list nat) : bool :=
  (length p =? length xs)
  && forallb (fun i => existsb (Nat.eqb i) p) (seq 0 (length xs))
  && ascending xs p.

Definition qz (z : Z) : R := Q2Qc (inject_Z z).

(** The index held by an id tensor's element, when it is one. *)
Definition index_of (x : R) : option nat :=
  if (Qden (this x) =? 1)%positive && (0 <=? Qnum (this x))%Z
  then Some (Z.to_nat (Qnum (this x)))
  else None.

Definition tensor_elements (t : Tensor) : list R :=
  match t with
  | Scalar x => [x]
  | Vector xs => xs
  end.

(** The gradient, laid out over a table of [n] rows of dimension [d], that
    is [v] on row [r] and zero elsewhere. *)
Definition row_grad (n d r : nat) (v : list R) : Grad :=
  flat_map (fun j => if j =? r then v else repeat 0%Qc d) (seq 0 n).

(** The factorisation model: the prediction for [(u, i)] is the dot product
    of row [u] of the user table and row [i] of the item table; parameters
    are laid out user table first. *)
Definition mf_predict (U V : Embedding) (u i : R) : result Dual :=
  match index_of u, index_of i with
  | Some u, Some i =>
      if (u <? num_embeddings U) && (i <? num_embeddings V) then
        let ru := nth u (weight U) [] in
        let ri := nth i (weight V) [] in
        Ok (mkDual (dot ru ri)
              (row_grad (num_embeddings U) (embedding_dim U) u ri
               ++ row_grad (num_embeddings V) (embedding_dim V) i ru))
      else Raise IndexError
  | _, _ => Raise RuntimeError
  end.

Fixpoint mf_predict_all (U V : Embedding) (us vs : list R)
  : result (list Dual) :=
  match us, vs with
  | [], [] => Ok []
  | u :: us', i :: vs' =>
      match mf_predict U V u i with
      | Raise e => Raise e
      | Ok d =>
          match mf_predict_all U V us' vs' with
          | Raise e => Raise e
          | Ok ds => Ok (d :: ds)
          end
      end
  | _, _ => Raise RuntimeError
  end.

Definition mf_forward (p : Parameters) (training : bool) (users items : Tensor)
  : result GTensor :=
  match p_user p, p_item p with
  | Has U, Has V =>
      match mf_predict_all U V (tensor_elements users) (tensor_elements items)
      with
      | Ok ds => Ok (GVector ds)
      | Raise e => Raise e
      end
  | _, _ => Raise AttributeError
  end.

(** Plain gradient descent with learning rate [lr], no buffers; it never
    raises, and its [zero_grad] clears the gradient. *)
Fixpoint sgd_row (lr : R) (row : list R) (g : Grad) : list R * Grad :=
  match row with
  | [] => ([], g)
  | x :: row' =>
      let '(r, g') := sgd_row lr row' (tl g) in
      ((x - lr * hd 0%Qc g)%Qc :: r, g')
  end.

Fixpoint sgd_rows (lr : R) (rs : list (list R)) (g : Grad)
  : list (list R) * Grad :=
  match rs with
  | [] => ([], g)
  | r :: rs' =>
      let '(r', g1) := sgd_row lr r g in
      let '(rs'', g2) := sgd_rows lr rs' g1 in
      (r' :: rs'', g2)
  end.

Definition sgd_table (lr : R) (a : attr Embedding) (g : Grad)
  : attr Embedding * Grad :=
  match a with
  | Has e =>
      let '(rs, g') := sgd_rows lr (weight e) g in
      (Has (mkEmbedding (embedding_dim e) rs), g')
  | _ => (a, g)
  end.

Definition sgd (lr : R) (buffers : list R) (p : Parameters) (g : Grad)
  : result unit * (list R * Parameters) :=
  let '(u, g1) := sgd_table lr (p_user p) g in
  let '(i, g2) := sgd_table lr (p_item p) g1 in
  let '(x, _) := sgd_row lr (p_extra p) g2 in
  (Ok tt, (buffers, mkParameters u i x)).

Definition clear_grad (g : Grad) : result unit * Grad := (Ok tt, []).

(** An optimizer whose [step()] needs an argument that [Step] does not
    pass: it raises and changes nothing. *)
Definition needs_closure (buffers : list R) (p : Parameters) (g : Grad)
  : result unit * (list R * Parameters) :=
  (Raise TypeError, (buffers, p)).

(** Objectives. [base] is a loss without weighting. [unweighted base] has no
    [weight] attribute. [weighted base w0] has one, holding [w0], and
    multiplies the loss of [base] by it, element by element, a 0-dimensional
    or 1-element weight being broadcast. *)
Definition unweighted (base : GTensor -> Tensor -> result GTensor)
  : Objective :=
  mkObjective None (fun _ preds prefs => base preds prefs).

Fixpoint scale_each (ws : list R) (ds : list Dual) : result (list Dual) :=
  match ws, ds with
  | [], [] => Ok []
  | c :: ws', d :: ds' =>
      match scale_each ws' ds' with
      | Ok r => Ok (dscale c d :: r)
      | Raise e => Raise e
      end
  | _, _ => Raise RuntimeError
  end.

Definition gmap_elements (f : Dual -> Dual) (t : GTensor) : GTensor :=
  match t with
  | GScalar d => GScalar (f d)
  | GVector ds => GVector (List.map f ds)
  end.

Definition apply_weight (slot : option (option Tensor)) (l : GTensor)
  : result GTensor :=
  match slot with
  | Some (Some (Scalar c)) => Ok (gmap_elements (dscale c) l)
  | Some (Some (Vector [c])) =>
      match l with
      | GScalar d => Ok (GVector [dscale c d])
      | GVector ds => Ok (GVector (List.map (dscale c) ds))
      end
  | Some (Some (Vector ws)) =>
      match l with
      | GScalar d => Ok (GVector (List.map (fun c => dscale c d) ws))
      | GVector [d] => Ok (GVector (List.map (fun c => dscale c d) ws))
      | GVector ds =>
          match scale_each ws ds with
          | Ok r => Ok (GVector r)
          | Raise e => Raise e
          end
      end
  | _ => Ok l
  end.

Definition weighted (base : GTensor -> Tensor -> result GTensor)
    (w0 : option Tensor) : Objective :=
  mkObjective (Some w0)
    (fun slot preds prefs =>
       match base preds prefs with
       | Ok l => apply_weight slot l
       | Raise e => Raise e
       end).

(** The squared error of each prediction, not reduced. *)
Definition squared_error_one (d : Dual) (y : R) : Dual :=
  mkDual ((val d - y) * (val d - y))%Qc
         (List.map (fun x => (qz 2 * (val d - y) * x)%Qc) (der d)).

Fixpoint squared_error_all (ds : list Dual) (ys : list R)
  : result (list Dual) :=
  match ds, ys with
  | [], [] => Ok []
  | d :: ds', y :: ys' =>
      match squared_error_all ds' ys' with
      | Ok r => Ok (squared_error_one d y :: r)
      | Raise e => Raise e
      end
  | _, _ => Raise RuntimeError
  end.

Definition squared_error (preds : GTensor) (prefs : Tensor) : result GTensor :=
  match squared_error_all (elements preds) (tensor_elements prefs) with
  | Ok r => Ok (GVector r)
  | Raise e => Raise e
  end.

(** A small engine: 2 users and 3 items of dimension 1, user 0 scoring the
    items 1, 3 and 2. *)
Definition table (d : nat) (rs : list (list Z)) : Embedding :=
  mkEmbedding d (List.map (List.map qz) rs).

Definition demo_model : Model :=
  mkModel (Has (table 1 [[1]; [2]]%Z)) (Has (table 1 [[1]; [3]; [2]]%Z))
          [] false [] mf_forward.

Definition demo_optimizer : Optimizer :=
  mkOptimizer [] (sgd (qz 1)) clear_grad.

Definition demo_engine : Step :=
  mkStep demo_model (unweighted squared_error) demo_optimizer
         default_conf_func default_device.

Definition demo_world : World := mkWorld demo_engine ∅ [].

Definition batch_of_rows (c : nat) (rs : list (list Z)) (prefs : list Z)
  : Matrix * Tensor :=
  (mkMatrix c (List.map (List.map qz) rs), Vector (List.map qz prefs)).

(** ** Notions used in the statements *)

Definition is_opt_step (ev : Event) : bool :=
  match ev with EvOptStep => true | _ => false end.

(** The number of optimizer updates in a trace. *)
Definition updates (t : list Event) : nat := length (List.filter is_opt_step t).

Definition is_forward (ev : Event) : bool :=
  match ev with EvForward _ _ => true | _ => false end.

(** The number of calls of the model in a trace. *)
Definition forwards (t : list Event) : nat := length (List.filter is_forward t).

(** The objective as [inject_weight] leaves it. *)
Definition injected (o : Objective) (confs : Tensor) : Objective :=
  if hasattr_weight o then set_weight o confs else o.

(** The part that [step] and the loop body of [batch_fit] share, from the
    call of the model on; [reduce] is what is applied to the loss before the
    backward pass ([.mean()] in [batch_fit], nothing in [step]). *)
Definition train_on `{Runtime} (reduce : GTensor -> GTensor)
    (users items rtngs prefs : Tensor) : M unit :=
  preds <- call_model users items ;;
  confs <- call_conf rtngs ;;
  inject_weight confs ;;;
  loss <- call_objective preds prefs ;;
  let loss := reduce loss in
  backward loss ;;;
  optimizer_step ;;;
  optimizer_zero_grad.

(** The engine with the parameters [p], the gradient [g] and the optimizer's
    buffers [s]. *)
Definition with_learnt (e : Step) (s : list R) (p : Parameters) (g : Grad)
  : Step :=
  set_optimizer
    (set_model e (set_grad (set_parameters (model e) p) g))
    (set_opt_state (optimizer e) s).

(** The backward pass from a loss of gradient [der d], then the optimizer's
    [step()] and, if that returns, its [zero_grad()]: how this ends and the
    world it leaves. *)
Definition commit (w : World) (d : Dual) : result unit * World :=
  let e := self w in
  let g := gadd (grad (model e)) (der d) in
  let '(r, (s, p)) := update (optimizer e) (opt_state (optimizer e))
                             (parameters (model e)) g in
  match r with
  | Raise x =>
      (Raise x, mkWorld (with_learnt e s p g) (disk w)
                        (trace w ++ [EvBackward; EvOptStep]))
  | Ok _ =>
      let '(r', g') := zero_grad (optimizer e) g in
      (r', mkWorld (with_learnt e s p g') (disk w)
                   (trace w ++ [EvBackward; EvOptStep; EvZeroGrad]))
  end.

(** The world after [self.model.train()]. *)
Definition train_world (w : World) : World :=
  set_self w (set_model (self w) (set_training (model (self w)) true)).

(** [train_on], written out. *)
Definition train_on_result (reduce : GTensor -> GTensor)
    (users items rtngs prefs : Tensor) (w : World) : result unit * World :=
  let w1 := emit w (EvForward users items) in
  let m := model (self w) in
  match forward m (parameters m) (training m) users items with
  | Raise e => (Raise e, w1)
  | Ok preds =>
      match conf_func (self w) rtngs with
      | Raise e => (Raise e, w1)
      | Ok confs =>
          let o := injected (objective (self w)) confs in
          let w2 := set_self w1 (set_objective (self w) o) in
          match criterion o (weight_slot o) preds prefs with
          | Raise e => (Raise e, w2)
          | Ok loss =>
              match elements (reduce loss) with
              | [d] => commit w2 d
              | _ => (Raise RuntimeError, w2)
              end
          end
      end
  end.

(** The calls that one batch makes when nothing raises. *)
Definition column_values (features : Matrix) (j : nat) : Tensor :=
  Vector (List.map (fun r => nth j r 0%Qc) (rows features)).

Definition batch_events (batch : Matrix * Tensor) : list Event :=
  [EvForward (column_values (fst batch) 0) (column_values (fst batch) 1);
   EvBackward; EvOptStep; EvZeroGrad].

(** The world that one batch leaves, computed from the collaborators
    themselves: the model's prediction for the first two columns, the
    confidence of the third, the objective under the injected weight, the
    gradient of the mean of its loss added to the accumulated one, the
    optimizer's [step()] on that gradient and then its [zero_grad()].
    [None] when the batch has fewer than 3 columns, the device cannot be
    used, or one of the collaborators raises. *)
Definition after_batch `{Runtime} (w : World) (batch : Matrix * Tensor)
  : option World :=
  let '(features, prefs) := batch in
  let e := self w in
  let m := model e in
  let users := column_values features 0 in
  let items := column_values features 1 in
  let rtngs := column_values features 2 in
  if (3 <=? ncols features) && available (device e) then
    match forward m (parameters m) (training m) users items with
    | Ok preds =>
        match conf_func e rtngs with
        | Ok confs =>
            let o := injected (objective e) confs in
            match criterion o (weight_slot o) preds prefs with
            | Ok loss =>
                let d := ddiv (dsum (elements loss)) (Qc_of_nat (numel loss)) in
                let g := gadd (grad m) (der d) in
                match update (optimizer e) (opt_state (optimizer e))
                             (parameters m) g with
                | (Ok _, (s, p)) =>
                    match zero_grad (optimizer e) g with
                    | (Ok _, g') =>
                        Some (mkWorld
                                (mkStep
                                   (mkModel (p_user p) (p_item p) (p_extra p)
                                            (training m) g' (forward m))
                                   o
                                   (mkOptimizer s (update (optimizer e))
                                                (zero_grad (optimizer e)))
                                   (conf_func e) (device e))
                                (disk w)
                                (trace w ++ [EvForward users items; EvBackward;
                                             EvOptStep; EvZeroGrad]))
                    | (Raise _, _) => None
                    end
                | (Raise _, _) => None
                end
            | Raise _ => None
            end
        | Raise _ => None
        end
    | Raise _ => None
    end
  else None.

(** The world that a sequence of batches leaves, one after the other. *)
Fixpoint after_batches `{Runtime} (w : World) (batches : list (Matrix * Tensor))
  : option World :=
  match batches with
  | [] => Some w
  | b :: batches' =>
      match after_batch w b with
      | Some w1 => after_batches w1 batches'
      | None => None
      end
  end.

(** One observation, as a batch of one example for [batch_fit] and as the
    arguments of [step]. *)
Record Observation : Type := mkObservation {
  obs_user : R;
  obs_item : R;
  obs_rating : R;
  obs_preference : R
}.

Definition single_batch (o : Observation) : Matrix * Tensor :=
  (mkMatrix 3 [[obs_user o; obs_item o; obs_rating o]],
   Vector [obs_preference o]).

Definition step_on `{Runtime} (o : Observation) : M unit :=
  step (Vector [obs_user o]) (Vector [obs_item o])
       (Some (Vector [obs_rating o])) (Some (Vector [obs_preference o])).

(** The contracts of the model and of the objective on one example: one
    prediction for one pair, and one loss (per example or reduced) for one
    prediction and one target, under the weight that the engine injects
    for the rating of that example (none when the objective has no [weight]
    attribute). *)
Definition one_prediction_per_pair (m : Model) : Prop :=
  forall p t u i preds,
    forward m p t (Vector [u]) (Vector [i]) = Ok preds -> numel preds = 1.

Definition one_loss_per_example (e : Step) : Prop :=
  forall preds r y confs l,
    numel preds = 1 ->
    conf_func e (Vector [r]) = Ok confs ->
    criterion (objective e) (weight_slot (injected (objective e) confs))
              preds (Vector [y]) = Ok l ->
    numel l = 1.

(** An optimizer whose [step()] and [zero_grad()] do not raise. *)
Definition optimizer_returns (o : Optimizer) : Prop :=
  (forall s p g, fst (update o s p g) = Ok tt)
  /\ (forall g, fst (zero_grad o g) = Ok tt).

(** The scores [predict] ranks: the dot product of each row of the item
    table with row [user] of the user table. *)
Definition item_scores (U V : Embedding) (user : Z) : list R :=
  List.map (fun row => dot row (nth (Z.to_nat user) (weight U) []))
           (weight V).

Fixpoint descending (xs : list R) (p : list nat) : bool :=
  match p with
  | i :: ((j :: _) as p') =>
      Qle_bool (nth j xs 0%Qc) (nth i xs 0%Qc) && descending xs p'
  | _ => true
  end.

(** A batch cut to its first three columns. *)
Definition first_three (features : Matrix) : Matrix :=
  mkMatrix 3 (List.map (firstn 3) (rows features)).

Definition table_values (a : attr Embedding) : list (list Q) :=
  match a with
  | Has e => List.map (List.map this) (weight e)
  | _ => []
  end.

(** Two runs that end with the same outcome in worlds related by [rel]. *)
Definition related {A} (rel : World -> World -> Prop)
    (ra rb : result A * World) : Prop :=
  fst ra = fst rb /\ rel (snd ra) (snd rb).

(** Two engines that differ in the objective only: [a] has the loss [base]
    without a weight attribute, [b] has the weighted form of [base]; both
    have the confidence function that is constantly 1. *)
Definition unit_confidence_rel (base : GTensor -> Tensor -> result GTensor)
    (a b : World) : Prop :=
  model (self a) = model (self b)
  /\ optimizer (self a) = optimizer (self b)
  /\ device (self a) = device (self b)
  /\ disk a = disk b
  /\ trace a = trace b
  /\ conf_func (self a) = default_conf_func
  /\ conf_func (self b) = default_conf_func
  /\ objective (self a) = unweighted base
  /\ exists w0, objective (self b) = weighted base w0.

(** Data for the small engine: a loader of two batches, the same two
    examples as observations, and batches of 2 and of 4 columns. *)
Definition demo_loader : list (Matrix * Tensor) :=
  [batch_of_rows 3 [[0; 1; 1]]%Z [1]%Z; batch_of_rows 3 [[1; 2; 1]]%Z [0]%Z].

Definition demo_observations : list Observation :=
  [mkObservation (qz 0) (qz 1) (qz 1) (qz 1);
   mkObservation (qz 1) (qz 2) (qz 3) (qz 0)].

Definition two_column_batch : Matrix * Tensor :=
  batch_of_rows 2 [[0; 1]]%Z [1]%Z.

Definition four_column_batch : Matrix * Tensor :=
  batch_of_rows 4 [[0; 1; 1; 7]]%Z [1]%Z.

(** The small engine after one call of [step] on user 0 and item 1, to
    save; the small engine itself is the one to load into. *)
Definition trained_model : Model :=
  mkModel (Has (table 1 [[-11]; [2]]%Z)) (Has (table 1 [[1]; [-1]; [2]]%Z))
          [] true [] mf_forward.

Definition trained_world : World :=
  mkWorld (mkStep trained_model (unweighted squared_error) demo_optimizer
                  default_conf_func default_device) ∅ [].

(** A model without the user table, and one whose item table is [None]. *)
Definition model_without_users : Model :=
  mkModel Missing (Has (table 1 [[1]; [3]; [2]]%Z)) [] false [] mf_forward.

Definition model_with_none_items : Model :=
  mkModel (Has (table 1 [[1]; [2]]%Z)) IsNone [] false [] mf_forward.

(** An engine with a single item. *)
Definition one_item_world : World :=
  mkWorld (mkStep (mkModel (Has (table 1 [[1]; [2]]%Z))
                           (Has (table 1 [[3]]%Z)) [] false [] mf_forward)
                  (unweighted squared_error) demo_optimizer
                  default_conf_func default_device) ∅ [].

(** An engine whose tables disagree on the dimension, a batch of two
    examples, and the small engine with a stored state whose user table has
    three rows. *)
Definition mismatched_world : World :=
  mkWorld (mkStep (mkModel (Has (table 1 [[1]; [2]]%Z))
                           (Has (table 2 [[1; 0]; [0; 1]]%Z)) [] false []
                           mf_forward)
                  (unweighted squared_error) demo_optimizer
                  default_conf_func default_device) ∅ [].

Definition two_example_features : Matrix :=
  mkMatrix 3 (List.map (List.map qz) [[0; 1; 1]; [1; 2; 1]]%Z).

Definition stale_state : StateDict :=
  mkStateDict (Some (table 1 [[5]; [6]; [7]]%Z))
              (Some (table 1 [[4]; [5]; [6]]%Z)) [].

Definition stale_file_world : World :=
  mkWorld demo_engine (<["model.pt" := stale_state]> ∅) [].

(** The small engine with the weighted squared error and, as confidence,
    the rating itself; and the small engine with an optimizer whose
    [step()] raises. *)
Definition rating_as_confidence : Tensor -> result Tensor := fun r => Ok r.

Definition weighted_engine : Step :=
  mkStep demo_model (weighted squared_error None) demo_optimizer
         rating_as_confidence default_device.

Definition weighted_world : World := mkWorld weighted_engine ∅ [].

Definition closure_world : World :=
  mkWorld (mkStep demo_model (unweighted squared_error)
                  (mkOptimizer [] needs_closure clear_grad)
                  default_conf_func default_device) ∅ [].

(** * Properties *)

Ltac unfold_monad :=
  unfold to_device_opt in *;
  unfold bind, ret, raise, lift, get_self, put_self, log, modify_model,
    to_device, emit, set_self in *.

Section Properties.
Context `{RT : Runtime}.

Lemma bind_ok {A B} (m : M A) (f : A -> M B) w a w' :
  m w = (Ok a, w') -> bind m f w = f a w'.
Proof. intros H. unfold bind. now rewrite H. Qed.

Lemma bind_raise {A B} (m : M A) (f : A -> M B) w e w' :
  m w = (Raise e, w') -> bind m f w = (Raise e, w').
Proof. intros H. unfold bind. now rewrite H. Qed.

Lemma bind_inv_ok {A B} (m : M A) (f : A -> M B) w b w2 :
  bind m f w = (Ok b, w2) ->
  exists a w1, m w = (Ok a, w1) /\ f a w1 = (Ok b, w2).
Proof.
  unfold bind. destruct (m w) as [[a | e] w1]; intros H.
  - exists a, w1. now split.
  - discriminate.
Qed.

Lemma ok_pair {A} (p : result A * World) (a : A) :
  fst p = Ok a -> p = (Ok a, snd p).
Proof. destruct p as [r w]. simpl. now intros ->. Qed.

Lemma bind_congr {A B} (m : M A) (f g : A -> M B) w :
  (forall a w1, m w = (Ok a, w1) -> f a w1 = g a w1) ->
  bind m f w = bind m g w.
Proof.
  intros H. unfold bind. destruct (m w) as [[a | e] w1]; [| reflexivity].
  now apply H.
Qed.

Lemma updates_app t1 t2 : updates (t1 ++ t2) = updates t1 + updates t2.
Proof. unfold updates. now rewrite List.filter_app, List.length_app. Qed.

Lemma forwards_app t1 t2 : forwards (t1 ++ t2) = forwards t1 + forwards t2.
Proof. unfold forwards. now rewrite List.filter_app, List.length_app. Qed.

Lemma set_objective_same e : set_objective e (objective e) = e.
Proof. now destruct e. Qed.

Lemma set_self_same w : set_self w (self w) = w.
Proof. now destruct w. Qed.

Lemma parameters_set_training m b :
  parameters (set_training m b) = parameters m.
Proof. reflexivity. Qed.

Lemma criterion_injected o c : criterion (injected o c) = criterion o.
Proof. unfold injected. now destruct (hasattr_weight o). Qed.

Lemma to_device_ok {A} (x : A) w :
  available (device (self w)) = true -> to_device x w = (Ok x, w).
Proof. intros H. unfold to_device. now rewrite H. Qed.

Lemma to_device_raise {A} (x : A) w :
  available (device (self w)) = false ->
  to_device x w = (Raise RuntimeError, w).
Proof. intros H. unfold to_device. now rewrite H. Qed.

Lemma step_unfold user item rating preference :
  step user item rating preference =
  (model_train ;;;
   user <- to_device user ;;
   item <- to_device item ;;
   rtng <- to_device_opt rating ;;
   pref <- to_device_opt preference ;;
   train_on (fun l => l) user item rtng pref).
Proof. reflexivity. Qed.

Lemma fit_batch_unfold features preferences :
  fit_batch (features, preferences) =
  (users <- (c <- lift (column features 0) ;; to_device c) ;;
   items <- (c <- lift (column features 1) ;; to_device c) ;;
   rtngs <- (c <- lift (column features 2) ;; to_device c) ;;
   prefs <- to_device preferences ;;
   train_on mean users items rtngs prefs).
Proof. reflexivity. Qed.

Lemma train_on_eq reduce users items rtngs prefs w :
  train_on reduce users items rtngs prefs w
  = train_on_result reduce users items rtngs prefs w.
Proof.
  unfold train_on, train_on_result, call_model, call_conf, inject_weight,
    call_objective, backward, optimizer_step, optimizer_zero_grad, injected,
    commit, with_learnt.
  unfold_monad. simpl.
  destruct (forward _ _ _ _ _) as [preds | e]; [| reflexivity].
  destruct (conf_func (self w) rtngs) as [confs | e]; [| reflexivity].
  destruct (hasattr_weight (objective (self w))) eqn:Hattr; simpl;
    rewrite ?set_objective_same;
    (destruct (criterion _ _ _ _) as [loss | e]; [| reflexivity]);
    (destruct (elements (reduce loss)) as [| d [| d' l]]; try reflexivity);
    simpl;
    destruct (update _ _ _ _) as [[[] | x] [s p]]; simpl;
    rewrite <- ?List.app_assoc; simpl; try reflexivity;
    destruct (zero_grad _ _) as [[[] | x] g']; simpl;
    rewrite <- ?List.app_assoc; reflexivity.
Qed.

Lemma fit_batch_short features preferences w :
  ncols features < 3 ->
  available (device (self w)) = true ->
  fit_batch (features, preferences) w = (Raise IndexError, w).
Proof.
  intros Hc Hdev. rewrite fit_batch_unfold. unfold column. unfold_monad.
  destruct (ncols features) as [| [| [| c]]]; simpl; rewrite ?Hdev; simpl;
    try reflexivity.
  lia.
Qed.

Lemma step_some_eq user item rtng pref w :
  available (device (self w)) = true ->
  step user item (Some rtng) (Some pref) w
  = train_on (fun l => l) user item rtng pref (train_world w).
Proof.
  intros Hdev. rewrite step_unfold.
  rewrite (bind_ok _ _ _ tt (train_world w)) by reflexivity.
  now rewrite !(bind_ok _ _ _ _ (train_world w)) by now apply to_device_ok.
Qed.

Lemma fit_batch_some_eq features preferences w :
  available (device (self w)) = true ->
  3 <= ncols features ->
  fit_batch (features, preferences) w
  = train_on mean (column_values features 0) (column_values features 1)
             (column_values features 2) preferences w.
Proof.
  intros Hdev Hc. rewrite fit_batch_unfold.
  assert (Hcol : forall j, j < 3 ->
            (c <- lift (column features j) ;; to_device c) w
            = (Ok (column_values features j), w)).
  { intros j Hj. unfold column, column_values. unfold_monad.
    replace (j <? ncols features) with true
      by (symmetry; apply Nat.ltb_lt; lia).
    now rewrite Hdev. }
  rewrite (bind_ok _ _ _ _ _ (Hcol 0 ltac:(lia))).
  rewrite (bind_ok _ _ _ _ _ (Hcol 1 ltac:(lia))).
  rewrite (bind_ok _ _ _ _ _ (Hcol 2 ltac:(lia))).
  now rewrite (bind_ok _ _ _ preferences w) by now apply to_device_ok.
Qed.

(** [step], by cases on the device and on the two optional arguments. *)
Lemma step_cases user item rating preference w :
  (exists e, step user item rating preference w = (Raise e, train_world w))
  \/ (exists rtng pref,
        rating = Some rtng /\ preference = Some pref
        /\ available (device (self w)) = true
        /\ step user item rating preference w
           = train_on (fun l => l) user item rtng pref (train_world w)).
Proof.
  rewrite step_unfold.
  rewrite (bind_ok _ _ _ tt (train_world w)) by reflexivity.
  destruct (available (device (self w))) eqn:Hdev.
  - rewrite (bind_ok _ _ _ user (train_world w)) by now apply to_device_ok.
    rewrite (bind_ok _ _ _ item (train_world w)) by now apply to_device_ok.
    destruct rating as [rtng |]; [| left; now exists AttributeError].
    rewrite (bind_ok _ _ _ rtng (train_world w)) by now apply to_device_ok.
    destruct preference as [pref |]; [| left; now exists AttributeError].
    rewrite (bind_ok _ _ _ pref (train_world w)) by now apply to_device_ok.
    right. now exists rtng, pref.
  - left. exists RuntimeError. apply bind_raise. now apply to_device_raise.
Qed.

(** The loop body of [batch_fit], by cases on the slicing and the device. *)
Lemma fit_batch_cases features preferences w :
  (exists e, fit_batch (features, preferences) w = (Raise e, w))
  \/ (3 <= ncols features
      /\ available (device (self w)) = true
      /\ fit_batch (features, preferences) w
         = train_on mean (column_values features 0) (column_values features 1)
                    (column_values features 2) preferences w).
Proof.
  destruct (available (device (self w))) eqn:Hdev.
  - destruct (Nat.lt_ge_cases (ncols features) 3) as [Hc | Hc].
    + left. exists IndexError. now apply fit_batch_short.
    + right. split; [exact Hc |]. split; [reflexivity |].
      now apply fit_batch_some_eq.
  - left. rewrite fit_batch_unfold. unfold column. unfold_monad.
    destruct (0 <? ncols features); simpl; rewrite ?Hdev; eauto.
Qed.

(** ** [step] with a missing argument *)

(** C10. [step] gives [rating] and [preference] the default [None], yet a
    call in which either is [None] raises (an [AttributeError], on a usable
    device) before the model is called: the trace of calls is the one before
    the call, and the parameters, the accumulated gradient and the optimizer
    are untouched. *)
Theorem step_requires_rating_and_preference
    (user item : Tensor) (rating preference : option Tensor) (w : World) :
  rating = None \/ preference = None ->
  let r := step user item rating preference w in
  (exists e, fst r = Raise e)
  /\ (available (device (self w)) = true -> fst r = Raise AttributeError)
  /\ trace (snd r) = trace w
  /\ forwards (trace (snd r)) = forwards (trace w)
  /\ parameters (model (self (snd r))) = parameters (model (self w))
  /\ grad (model (self (snd r))) = grad (model (self w))
  /\ optimizer (self (snd r)) = optimizer (self w).
Proof.
  intros Hnone.
  assert (Hcases : rating = None \/ (exists r, rating = Some r) /\ preference = None).
  { destruct rating; [right; split; eauto | now left].
    destruct Hnone; [discriminate | assumption]. }
  clear Hnone. unfold step, model_train.
  destruct Hcases as [-> | [[r ->] ->]]; unfold_monad; simpl;
    destruct (available (device (self w))) eqn:Hdev; simpl;
    repeat (rewrite Hdev; simpl);
    repeat split; first [solve [eauto] | discriminate].
Qed.

(** ** One call of [step] *)

(** X19. A call of [step] on a usable device, with both tensors given, on
    which the model's forward pass, the confidence function and the
    objective return, the loss has one element, and the optimizer's
    [step()] and [zero_grad()] return on the gradient of that loss, returns
    normally; it has made one call of the model, one backward pass, one call
    of [optimizer.step()] and one of [zero_grad()], in that order, and the
    state it returns holds the parameters and the buffers that
    [optimizer.step()] left and the gradient that [zero_grad()] left. *)
Theorem step_applies_one_update
    (user item rtng pref : Tensor) (w : World) (preds loss : GTensor)
    (confs : Tensor) (d : Dual) (s : list R) (p : Parameters) (g' : Grad) :
  available (device (self w)) = true ->
  forward (model (self w)) (parameters (model (self w))) true user item
    = Ok preds ->
  conf_func (self w) rtng = Ok confs ->
  criterion (objective (self w))
    (weight_slot (injected (objective (self w)) confs)) preds pref
    = Ok loss ->
  elements loss = [d] ->
  update (optimizer (self w)) (opt_state (optimizer (self w)))
         (parameters (model (self w)))
         (gadd (grad (model (self w))) (der d)) = (Ok tt, (s, p)) ->
  zero_grad (optimizer (self w)) (gadd (grad (model (self w))) (der d))
    = (Ok tt, g') ->
  exists w',
    step user item (Some rtng) (Some pref) w = (Ok tt, w')
    /\ trace w' = trace w ++ [EvForward user item; EvBackward; EvOptStep;
                              EvZeroGrad]
    /\ updates (trace w') = S (updates (trace w))
    /\ opt_state (optimizer (self w')) = s
    /\ parameters (model (self w')) = p
    /\ grad (model (self w')) = g'.
Proof.
  intros Hdev Hfwd Hconf Hobj Hd Hupd Hzero.
  rewrite step_unfold.
  rewrite (bind_ok _ _ _ tt (train_world w)) by reflexivity.
  rewrite (bind_ok _ _ _ user (train_world w)) by now apply to_device_ok.
  rewrite (bind_ok _ _ _ item (train_world w)) by now apply to_device_ok.
  rewrite (bind_ok _ _ _ rtng (train_world w)) by now apply to_device_ok.
  rewrite (bind_ok _ _ _ pref (train_world w)) by now apply to_device_ok.
  rewrite train_on_eq. unfold train_on_result. simpl.
  rewrite parameters_set_training, Hfwd, Hconf, criterion_injected, Hobj, Hd.
  unfold commit. simpl. rewrite parameters_set_training, Hupd, Hzero.
  eexists. split; [reflexivity |]. simpl.
  rewrite <- !List.app_assoc. simpl.
  split; [reflexivity |].
  split; [rewrite updates_app; unfold updates at 2; simpl; lia |].
  destruct p. repeat split.
Qed.

(** ** [batch_fit]: one update per batch per epoch *)

Lemma commit_ok_trace w d w' :
  commit w d = (Ok tt, w') ->
  trace w' = trace w ++ [EvBackward; EvOptStep; EvZeroGrad].
Proof.
  unfold commit.
  destruct (update _ _ _ _) as [[[] | x] [s p]]; [| discriminate].
  destruct (zero_grad _ _) as [r g']. now intros [= _ <-].
Qed.

(** What the backward pass and the optimizer leave as they found it. *)
Lemma commit_frame w d :
  let w' := snd (commit w d) in
  forward (model (self w')) = forward (model (self w))
  /\ training (model (self w')) = training (model (self w))
  /\ objective (self w') = objective (self w)
  /\ conf_func (self w') = conf_func (self w)
  /\ device (self w') = device (self w)
  /\ update (optimizer (self w')) = update (optimizer (self w))
  /\ zero_grad (optimizer (self w')) = zero_grad (optimizer (self w))
  /\ disk w' = disk w.
Proof.
  unfold commit.
  destruct (update _ _ _ _) as [[[] | x] [s p]]; [| simpl; tauto].
  destruct (zero_grad _ _) as [r g']. simpl. tauto.
Qed.

Lemma train_on_ok_trace reduce users items rtngs prefs w w' :
  train_on reduce users items rtngs prefs w = (Ok tt, w') ->
  trace w' = trace w ++ [EvForward users items; EvBackward; EvOptStep;
                         EvZeroGrad].
Proof.
  rewrite train_on_eq. unfold train_on_result.
  destruct (forward _ _ _ _ _) as [preds | e]; [| discriminate].
  destruct (conf_func _ _) as [confs | e]; [| discriminate].
  destruct (criterion _ _ _ _) as [loss | e]; [| discriminate].
  destruct (elements (reduce loss)) as [| d [| d' l]]; try discriminate.
  intros H. apply commit_ok_trace in H. rewrite H. simpl.
  now rewrite <- List.app_assoc.
Qed.

Lemma column_to_device_inv features j w c w' :
  (c <- lift (column features j) ;; to_device c) w = (Ok c, w') ->
  c = column_values features j /\ w' = w /\ j < ncols features
  /\ available (device (self w)) = true.
Proof.
  unfold column, column_values. unfold_monad.
  destruct (j <? ncols features) eqn:Hj; [| discriminate].
  destruct (available (device (self w))); [| discriminate].
  intros [= <- <-]. apply Nat.ltb_lt in Hj. auto.
Qed.

Lemma fit_batch_ok_trace batch w w' :
  fit_batch batch w = (Ok tt, w') ->
  trace w' = trace w ++ batch_events batch.
Proof.
  destruct batch as [features preferences]. rewrite fit_batch_unfold.
  intros H.
  apply bind_inv_ok in H as (users & w1 & H1 & H).
  apply bind_inv_ok in H as (items & w2 & H2 & H).
  apply bind_inv_ok in H as (rtngs & w3 & H3 & H).
  apply bind_inv_ok in H as (prefs & w4 & H4 & H).
  apply column_to_device_inv in H1 as (-> & -> & _).
  apply column_to_device_inv in H2 as (-> & -> & _).
  apply column_to_device_inv in H3 as (-> & -> & _).
  unfold to_device in H4.
  destruct (available (device (self w))); [| discriminate].
  injection H4 as <- <-.
  now apply train_on_ok_trace in H.
Qed.

Lemma for_each_app {A} (body : A -> M unit) (l1 l2 : list A) w :
  for_each body (l1 ++ l2) w = (for_each body l1 ;;; for_each body l2) w.
Proof.
  revert w. induction l1 as [| x l1 IH]; intros w; simpl.
  - reflexivity.
  - unfold bind.
    destruct (body x w) as [[[] | e] w1]; [| reflexivity].
    rewrite IH. reflexivity.
Qed.

Lemma for_each_epochs {A B} (body : A -> M unit) (l : list A) (es : list B) w :
  for_each (fun _ => for_each body l) es w
  = for_each body (concat (repeat l (length es))) w.
Proof.
  revert w. induction es as [| e es IH]; intros w; simpl.
  - reflexivity.
  - rewrite for_each_app. unfold bind.
    destruct (for_each body l w) as [[[] | x] w1]; [| reflexivity].
    apply IH.
Qed.

Lemma for_each_fit_batch_trace ds w w' :
  for_each fit_batch ds w = (Ok tt, w') ->
  trace w' = trace w ++ flat_map batch_events ds.
Proof.
  revert w. induction ds as [| b ds IH]; intros w; simpl.
  - unfold ret. intros [= <-]. now rewrite List.app_nil_r.
  - intros H. apply bind_inv_ok in H as ([] & w1 & H1 & H).
    apply fit_batch_ok_trace in H1. apply IH in H.
    rewrite H, H1. now rewrite <- List.app_assoc.
Qed.

Lemma flat_map_concat_repeat {A B} (f : A -> list B) (l : list A) n :
  flat_map f (concat (repeat l n)) = concat (repeat (flat_map f l) n).
Proof.
  induction n as [| n IH]; simpl; [reflexivity |].
  now rewrite List.flat_map_app, IH.
Qed.

Lemma updates_batches ds : updates (flat_map batch_events ds) = length ds.
Proof.
  induction ds as [| b ds IH]; [reflexivity |].
  change (flat_map batch_events (b :: ds))
    with (batch_events b ++ flat_map batch_events ds).
  rewrite updates_app, IH. reflexivity.
Qed.

Lemma updates_epochs ds n :
  updates (concat (repeat (flat_map batch_events ds) n)) = n * length ds.
Proof.
  induction n as [| n IH]; [reflexivity |]. simpl.
  now rewrite updates_app, IH, updates_batches.
Qed.

Lemma length_range epochs : length (range epochs) = Z.to_nat epochs.
Proof. unfold range. apply List.length_seq. Qed.

Lemma batch_fit_eq ds epochs w :
  batch_fit ds epochs w
  = for_each fit_batch (concat (repeat ds (Z.to_nat epochs))) (train_world w).
Proof.
  unfold batch_fit.
  rewrite (bind_ok _ _ _ tt (train_world w)) by reflexivity.
  now rewrite for_each_epochs, length_range.
Qed.

Lemma after_batch_eq features prefs w :
  after_batch w (features, prefs)
  = if (3 <=? ncols features) && available (device (self w))
    then match train_on_result mean (column_values features 0)
                 (column_values features 1) (column_values features 2)
                 prefs w with
         | (Ok _, w') => Some w'
         | (Raise _, _) => None
         end
    else None.
Proof.
  unfold after_batch, train_on_result.
  destruct ((3 <=? ncols features) && available (device (self w)));
    [| reflexivity].
  destruct (forward _ _ _ _ _) as [preds | e]; [| reflexivity].
  destruct (conf_func _ _) as [confs | e]; [| reflexivity].
  destruct (criterion _ _ _ _) as [loss | e]; [| reflexivity].
  unfold mean, commit, with_learnt. simpl.
  destruct (update _ _ _ _) as [[[] | x] [s p]]; [| reflexivity].
  destruct (zero_grad _ _) as [[[] | x] g']; [| reflexivity].
  simpl. now rewrite <- List.app_assoc.
Qed.

Lemma fit_batch_after batch w w' :
  fit_batch batch w = (Ok tt, w') <-> after_batch w batch = Some w'.
Proof.
  destruct batch as [features prefs]. rewrite after_batch_eq.
  destruct (fit_batch_cases features prefs w) as [[e H] | (Hc & Hdev & H)].
  - rewrite H. split; [discriminate |].
    destruct (3 <=? ncols features) eqn:Hc; [| discriminate].
    destruct (available (device (self w))) eqn:Hdev; [| discriminate].
    apply Nat.leb_le in Hc.
    rewrite (fit_batch_some_eq features prefs w Hdev Hc) in H.
    rewrite train_on_eq in H. rewrite H. discriminate.
  - rewrite H, train_on_eq, Hdev.
    replace (3 <=? ncols features) with true
      by (symmetry; now apply Nat.leb_le).
    simpl. destruct (train_on_result _ _ _ _ _ _) as [[[] | e] w1];
      split; congruence.
Qed.

Lemma for_each_fit_batch_after batches w w' :
  for_each fit_batch batches w = (Ok tt, w')
  <-> after_batches w batches = Some w'.
Proof.
  revert w. induction batches as [| b bs IH]; intros w.
  - simpl. unfold ret. split; congruence.
  - cbn [for_each after_batches]. unfold bind.
    pose proof (fit_batch_after b w) as Hb.
    destruct (fit_batch b w) as [[[] | e] w1].
    + rewrite (proj1 (Hb w1) eq_refl). apply IH.
    + destruct (after_batch w b) as [w2 |].
      * discriminate (proj2 (Hb w2) eq_refl).
      * split; discriminate.
Qed.

(** C4. When [batch_fit data_loader epochs] returns, the state it leaves
    is the one obtained by taking the batches of the loader in order, epoch
    after epoch, and giving each in turn to the optimizer: every batch's
    gradient (of the mean of the objective on the model's predictions for
    it) has been passed once to [optimizer.step()], whose parameters and
    buffers are in place for the next batch. The calls made are, for each
    epoch in turn and within it for each batch in the order of the loader,
    one call of the model on that batch's users and items, one backward
    pass, one call of [optimizer.step()] and one of [zero_grad()]:
    [epochs * length data_loader] updates in all. *)
Theorem batch_fit_updates_once_per_batch
    (data_loader : list (Matrix * Tensor)) (epochs : Z) (w w' : World) :
  batch_fit data_loader epochs w = (Ok tt, w') ->
  after_batches (train_world w)
                (concat (repeat data_loader (Z.to_nat epochs))) = Some w'
  /\ trace w' = trace w
                ++ concat (repeat (flat_map batch_events data_loader)
                                  (Z.to_nat epochs))
  /\ updates (trace w')
     = updates (trace w) + Z.to_nat epochs * length data_loader.
Proof.
  rewrite batch_fit_eq. intros H.
  assert (Ht : trace w' = trace w
             ++ concat (repeat (flat_map batch_events data_loader)
                               (Z.to_nat epochs))).
  { apply for_each_fit_batch_trace in H.
    now rewrite flat_map_concat_repeat in H. }
  split; [now apply for_each_fit_batch_after |]. split; [exact Ht |].
  now rewrite Ht, updates_app, updates_epochs.
Qed.

(** ** [batch_fit] on batches of one example and [step] *)

Lemma gadd_nil_r g : gadd g [] = g.
Proof. now destruct g. Qed.

Lemma Qcdiv_1_r (x : Qc) : (x / 1)%Qc = x.
Proof.
  unfold Qcdiv. replace (/ 1)%Qc with 1%Qc.
  - apply Qcmult_1_r.
  - apply Qc_is_canon. reflexivity.
Qed.

Lemma ddiv_1 d : ddiv d 1%Qc = d.
Proof.
  destruct d as [v g]. unfold ddiv. simpl. rewrite Qcdiv_1_r. f_equal.
  induction g as [| x g IH]; simpl; [reflexivity |].
  now rewrite Qcdiv_1_r, IH.
Qed.

Lemma dsum_single d : dsum [d] = d.
Proof.
  destruct d as [v g]. unfold dsum, dadd. simpl.
  now rewrite Qcplus_0_r, gadd_nil_r.
Qed.

(** The mean of a loss of one element is that element. *)
Lemma mean_single l d : elements l = [d] -> mean l = GScalar d.
Proof.
  intros H. unfold mean, numel. rewrite H. simpl length.
  change (Qc_of_nat 1) with 1%Qc. now rewrite dsum_single, ddiv_1.
Qed.

Lemma numel_1 l : numel l = 1 -> exists d, elements l = [d].
Proof.
  unfold numel. destruct (elements l) as [| d [| d' t]]; try discriminate.
  eauto.
Qed.

Lemma train_world_same w :
  training (model (self w)) = true -> train_world w = w.
Proof.
  destruct w as [[[u i x t g f] o op cf dv] dk tr]. simpl. now intros ->.
Qed.

Lemma hasattr_weight_injected o c :
  hasattr_weight (injected o c) = hasattr_weight o.
Proof. unfold injected. now destruct (hasattr_weight o) eqn:H. Qed.

Lemma weight_slot_injected o c :
  weight_slot (injected o c)
  = if hasattr_weight o then Some (Some c) else None.
Proof.
  unfold injected, hasattr_weight.
  destruct (weight_slot o) eqn:H; [reflexivity | exact H].
Qed.

(** What one update leaves as it found it. *)
Lemma train_on_frame reduce users items rtngs prefs w :
  let w' := snd (train_on reduce users items rtngs prefs w) in
  forward (model (self w')) = forward (model (self w))
  /\ training (model (self w')) = training (model (self w))
  /\ criterion (objective (self w')) = criterion (objective (self w))
  /\ conf_func (self w') = conf_func (self w)
  /\ device (self w') = device (self w)
  /\ disk w' = disk w
  /\ hasattr_weight (objective (self w'))
     = hasattr_weight (objective (self w))
  /\ update (optimizer (self w')) = update (optimizer (self w))
  /\ zero_grad (optimizer (self w')) = zero_grad (optimizer (self w)).
Proof.
  rewrite train_on_eq. unfold train_on_result.
  destruct (forward _ _ _ _ _) as [preds | e]; [| simpl; tauto].
  destruct (conf_func _ _) as [confs | e]; [| simpl; tauto].
  destruct (criterion _ _ _ _) as [loss | e];
    [| simpl; rewrite criterion_injected, hasattr_weight_injected; tauto].
  destruct (elements (reduce loss)) as [| d [| d' l]];
    try (simpl; rewrite criterion_injected, hasattr_weight_injected; tauto).
  match goal with |- context [commit ?w2 d] =>
    pose proof (commit_frame w2 d) as Hc end.
  cbv zeta in *. destruct Hc as (Hf & Ht & Ho & Hcf & Hd & Hu & Hz & Hk).
  rewrite Hf, Ht, Ho, Hcf, Hd, Hu, Hz, Hk. simpl.
  rewrite criterion_injected, hasattr_weight_injected. tauto.
Qed.

Lemma one_loss_per_example_frame (e e' : Step) :
  criterion (objective e') = criterion (objective e) ->
  hasattr_weight (objective e') = hasattr_weight (objective e) ->
  conf_func e' = conf_func e ->
  one_loss_per_example e -> one_loss_per_example e'.
Proof.
  intros Hc Hh Hcf H preds r y confs l Hn Hconf Hl.
  apply (H preds r y confs l Hn).
  - now rewrite <- Hcf.
  - rewrite weight_slot_injected, <- Hh, <- weight_slot_injected, <- Hc.
    exact Hl.
Qed.

Lemma single_batch_as_step o w :
  training (model (self w)) = true ->
  one_prediction_per_pair (model (self w)) ->
  one_loss_per_example (self w) ->
  fit_batch (single_batch o) w = step_on o w.
Proof.
  intros Htr Hm Ho. unfold step_on, single_batch.
  rewrite step_unfold, fit_batch_unfold.
  rewrite (bind_ok _ _ _ tt w)
    by (change (model_train w) with (Ok tt, train_world w);
        now rewrite train_world_same).
  destruct (available (device (self w))) eqn:Hdev.
  - rewrite !(bind_ok _ _ _ _ w)
      by (unfold column; unfold_monad; simpl; now rewrite Hdev).
    rewrite !train_on_eq. unfold train_on_result.
    destruct (forward _ _ _ _ _) as [preds | e] eqn:Hf; [| reflexivity].
    destruct (conf_func _ _) as [confs | e] eqn:Hcf; [| reflexivity].
    destruct (criterion _ _ _ _) as [loss | e] eqn:Hc; [| reflexivity].
    apply Hm in Hf. rewrite criterion_injected in Hc.
    apply (Ho _ _ _ _ _ Hf Hcf) in Hc. apply numel_1 in Hc as [d Hd].
    now rewrite (mean_single _ _ Hd), Hd.
  - rewrite (bind_raise _ _ w RuntimeError w)
      by (unfold column; unfold_monad; simpl; now rewrite Hdev).
    now rewrite (bind_raise _ _ w RuntimeError w) by now apply to_device_raise.
Qed.

Lemma fit_batch_frame batch w :
  let w' := snd (fit_batch batch w) in
  forward (model (self w')) = forward (model (self w))
  /\ training (model (self w')) = training (model (self w))
  /\ criterion (objective (self w')) = criterion (objective (self w))
  /\ device (self w') = device (self w).
Proof.
  destruct batch as [features preferences].
  destruct (fit_batch_cases features preferences w) as [[e H] | (_ & _ & H)];
    rewrite H; [simpl; tauto |].
  pose proof (train_on_frame mean (column_values features 0)
                (column_values features 1) (column_values features 2)
                preferences w) as Hfr.
  cbv zeta in *. tauto.
Qed.

Lemma fit_batch_frame_contracts batch w :
  let w' := snd (fit_batch batch w) in
  conf_func (self w') = conf_func (self w)
  /\ hasattr_weight (objective (self w'))
     = hasattr_weight (objective (self w)).
Proof.
  destruct batch as [features preferences].
  destruct (fit_batch_cases features preferences w) as [[e H] | (_ & _ & H)];
    rewrite H; [simpl; tauto |].
  pose proof (train_on_frame mean (column_values features 0)
                (column_values features 1) (column_values features 2)
                preferences w) as Hfr.
  cbv zeta in *. tauto.
Qed.

Lemma single_batches_as_steps obs w :
  training (model (self w)) = true ->
  one_prediction_per_pair (model (self w)) ->
  one_loss_per_example (self w) ->
  for_each fit_batch (List.map single_batch obs) w = for_each step_on obs w.
Proof.
  revert w. induction obs as [| o obs IH]; intros w Htr Hm Ho.
  - reflexivity.
  - change (bind (fit_batch (single_batch o))
                 (fun _ => for_each fit_batch (List.map single_batch obs)) w
            = bind (step_on o) (fun _ => for_each step_on obs) w).
    unfold bind. rewrite <- (single_batch_as_step o w Htr Hm Ho).
    pose proof (fit_batch_frame (single_batch o) w) as Hfr.
    pose proof (fit_batch_frame_contracts (single_batch o) w) as Hfc.
    cbv zeta in Hfr, Hfc.
    destruct (fit_batch (single_batch o) w) as [[[] | e] w1]; [| reflexivity].
    simpl in Hfr, Hfc. destruct Hfr as (Hf & Ht & Hc & _).
    destruct Hfc as (Hcf & Hh). apply IH.
    + now rewrite Ht.
    + unfold one_prediction_per_pair. now rewrite Hf.
    + now apply (one_loss_per_example_frame (self w)).
Qed.

Lemma step_from_train_world user item rating preference w :
  step user item rating preference (train_world w)
  = step user item rating preference w.
Proof.
  rewrite step_unfold.
  rewrite (bind_ok _ _ _ tt (train_world w)) by reflexivity.
  now rewrite (bind_ok _ _ w tt (train_world w)) by reflexivity.
Qed.

(** C3. On a model that returns one prediction for one pair and an
    objective that returns one loss for one example under the weight the
    engine injects for it, [batch_fit] with [epochs = 1] over the batches
    of one example made of [obs] and the calls of [step] on the
    observations of [obs], in the same order and from the same engine, end
    alike: both return or both raise the same exception, and the
    parameters, the optimizer with its buffers and the accumulated gradient
    are equal (exactly, hence within any tolerance). *)
Theorem batch_fit_single_examples_as_steps
    (obs : list Observation) (w : World) :
  one_prediction_per_pair (model (self w)) ->
  one_loss_per_example (self w) ->
  let b := batch_fit (List.map single_batch obs) 1 w in
  let s := for_each step_on obs w in
  fst b = fst s
  /\ parameters (model (self (snd b))) = parameters (model (self (snd s)))
  /\ optimizer (self (snd b)) = optimizer (self (snd s))
  /\ grad (model (self (snd b))) = grad (model (self (snd s))).
Proof.
  intros Hm Ho. cbv zeta. rewrite batch_fit_eq.
  change (Z.to_nat 1) with 1. simpl repeat. simpl concat.
  rewrite List.app_nil_r.
  rewrite single_batches_as_steps; try assumption; try reflexivity.
  destruct obs as [| o obs].
  - simpl. auto.
  - simpl for_each. unfold bind at 1 2 3 4. unfold step_on at 1 3 5 7.
    rewrite !step_from_train_world. auto.
Qed.

(** ** Confidence constantly 1: weighted and unweighted objectives *)

Lemma bind_related {A B} rel (m m' : M A) (f f' : A -> M B) a b :
  related rel (m a) (m' b) ->
  (forall x a' b', rel a' b' -> related rel (f x a') (f' x b')) ->
  related rel (bind m f a) (bind m' f' b).
Proof.
  unfold related, bind. intros [Hr Hw] Hf.
  destruct (m a) as [[x | e] a'], (m' b) as [[x' | e'] b']; simpl in *;
    try discriminate.
  - injection Hr as <-. now apply Hf.
  - injection Hr as <-. auto.
Qed.

Lemma for_each_related {A} rel (body : A -> M unit) (l : list A) :
  (forall x a b, rel a b -> related rel (body x a) (body x b)) ->
  forall a b, rel a b -> related rel (for_each body l a) (for_each body l b).
Proof.
  intros Hbody. induction l as [| x l IH]; intros a b Hab; simpl.
  - now split.
  - apply bind_related; [now apply Hbody |]. intros _ a' b'. apply IH.
Qed.

Lemma dscale_1 d : dscale 1%Qc d = d.
Proof.
  destruct d as [v g]. unfold dscale. simpl. rewrite Qcmult_1_l. f_equal.
  induction g as [| x g IH]; simpl; [reflexivity |].
  now rewrite Qcmult_1_l, IH.
Qed.

Lemma gmap_elements_dscale_1 l : gmap_elements (dscale 1%Qc) l = l.
Proof.
  destruct l as [d | ds]; simpl.
  - now rewrite dscale_1.
  - f_equal. induction ds as [| d ds IH]; simpl; [reflexivity |].
    now rewrite dscale_1, IH.
Qed.

(** A weight of 1 leaves the loss as it is. *)
Lemma apply_weight_1 l : apply_weight (Some (Some (Scalar 1%Qc))) l = Ok l.
Proof. simpl. now rewrite gmap_elements_dscale_1. Qed.

Section UnitConfidence.
Variable base : GTensor -> Tensor -> result GTensor.

Let rel := unit_confidence_rel base.

Lemma train_on_unit_confidence reduce users items rtngs prefs a b :
  rel a b ->
  related rel (train_on reduce users items rtngs prefs a)
              (train_on reduce users items rtngs prefs b).
Proof.
  intros (Hm & Ho & Hd & Hk & Ht & Hca & Hcb & Hoa & w0 & Hob).
  rewrite !train_on_eq. unfold train_on_result.
  rewrite Hca, Hcb, Hoa, Hob, <- Hm.
  destruct (forward _ _ _ _ _) as [preds | e].
  2:{ split; [reflexivity |]. simpl.
      unfold rel, unit_confidence_rel. simpl.
      rewrite Ht. repeat split; eauto. }
  unfold injected, default_conf_func. simpl.
  destruct (base preds prefs) as [loss | e].
  2:{ split; [reflexivity |]. unfold rel, unit_confidence_rel. simpl.
      rewrite Ht, Hm, Ho, Hd, Hk. repeat split; eauto. }
  rewrite gmap_elements_dscale_1.
  destruct (elements (reduce loss)) as [| d [| d' l]];
    try (split; [reflexivity |]; unfold rel, unit_confidence_rel; simpl;
         rewrite Ht, Hm, Ho, Hd, Hk; repeat split; eauto).
  unfold commit, with_learnt. simpl. rewrite Hm, Ho, Ht, Hk.
  destruct (update _ _ _ _) as [[[] | x] [s p]].
  - destruct (zero_grad _ _) as [r g']. split; [reflexivity |].
    unfold rel, unit_confidence_rel. simpl. rewrite Hd.
    repeat split; eauto.
  - split; [reflexivity |].
    unfold rel, unit_confidence_rel. simpl. rewrite Hd.
    repeat split; eauto.
Qed.

Lemma to_device_unit_confidence {A} (x : A) a b :
  rel a b -> related rel (to_device x a) (to_device x b).
Proof.
  intros Hab. pose proof Hab as (_ & _ & Hd & _). unfold to_device.
  rewrite Hd. destruct (available (device (self b))); now split.
Qed.

Lemma lift_unit_confidence {A} (r : result A) a b :
  rel a b -> related rel (lift r a) (lift r b).
Proof. intros Hab. now split. Qed.

Lemma model_train_unit_confidence a b :
  rel a b -> related rel (model_train a) (model_train b).
Proof.
  intros (Hm & Ho & Hd & Hk & Ht & Hca & Hcb & Hoa & w0 & Hob).
  split; [reflexivity |]. unfold rel, unit_confidence_rel. simpl.
  rewrite Hm. repeat split; eauto.
Qed.

Lemma fit_batch_unit_confidence batch a b :
  rel a b -> related rel (fit_batch batch a) (fit_batch batch b).
Proof.
  intros Hab. destruct batch as [features preferences].
  rewrite fit_batch_unfold.
  assert (Hcol : forall j a b, rel a b ->
            related rel ((c <- lift (column features j) ;; to_device c) a)
                        ((c <- lift (column features j) ;; to_device c) b)).
  { intros j a' b' H. apply bind_related; [now apply lift_unit_confidence |].
    intros. now apply to_device_unit_confidence. }
  apply bind_related; [now apply Hcol |].
  clear a b Hab; intros users a b Hab.
  apply bind_related; [now apply Hcol |].
  clear a b Hab; intros items a b Hab.
  apply bind_related; [now apply Hcol |].
  clear a b Hab; intros rtngs a b Hab.
  apply bind_related; [now apply to_device_unit_confidence |].
  clear a b Hab; intros prefs a b Hab.
  now apply train_on_unit_confidence.
Qed.

Lemma step_unit_confidence user item rating preference a b :
  rel a b ->
  related rel (step user item rating preference a)
              (step user item rating preference b).
Proof.
  intros Hab. rewrite step_unfold.
  apply bind_related; [now apply model_train_unit_confidence |].
  clear a b Hab; intros _ a b Hab.
  apply bind_related; [now apply to_device_unit_confidence |].
  clear a b Hab; intros user' a b Hab.
  apply bind_related; [now apply to_device_unit_confidence |].
  clear a b Hab; intros item' a b Hab.
  apply bind_related.
  { destruct rating; [now apply to_device_unit_confidence | now split]. }
  clear a b Hab; intros rtng a b Hab.
  apply bind_related.
  { destruct preference; [now apply to_device_unit_confidence | now split]. }
  clear a b Hab; intros pref a b Hab.
  now apply train_on_unit_confidence.
Qed.

Lemma batch_fit_unit_confidence data_loader epochs a b :
  rel a b ->
  related rel (batch_fit data_loader epochs a) (batch_fit data_loader epochs b).
Proof.
  intros Hab. unfold batch_fit.
  apply bind_related; [now apply model_train_unit_confidence |].
  clear a b Hab; intros _ a b Hab.
  apply for_each_related; [| assumption].
  clear a b Hab; intros _ a b Hab.
  apply for_each_related; [| assumption].
  intros. now apply fit_batch_unit_confidence.
Qed.

End UnitConfidence.

(** C9. With the confidence function that is constantly 1, an engine whose
    objective is a loss without a [weight] attribute and an engine whose
    objective is the weighted form of the same loss, holding any weight
    before the call, do the same on every observation and on every data
    set: [step] and [batch_fit] end with the same outcome, the same model
    (parameters and gradient) and the same optimizer. *)
Theorem unit_confidence_weighted_as_unweighted
    (base : GTensor -> Tensor -> result GTensor) (w0 : option Tensor)
    (m : Model) (opt : Optimizer) (dev : string)
    (dk : gmap string StateDict) (tr : list Event) :
  let wu := mkWorld (mkStep m (unweighted base) opt default_conf_func dev)
                    dk tr in
  let ww := mkWorld (mkStep m (weighted base w0) opt default_conf_func dev)
                    dk tr in
  (forall user item rating preference,
     let u := step user item rating preference wu in
     let v := step user item rating preference ww in
     fst u = fst v
     /\ model (self (snd u)) = model (self (snd v))
     /\ optimizer (self (snd u)) = optimizer (self (snd v)))
  /\ (forall data_loader epochs,
        let u := batch_fit data_loader epochs wu in
        let v := batch_fit data_loader epochs ww in
        fst u = fst v
        /\ model (self (snd u)) = model (self (snd v))
        /\ optimizer (self (snd u)) = optimizer (self (snd v))).
Proof.
  intros wu ww.
  assert (Hrel : unit_confidence_rel base wu ww).
  { unfold unit_confidence_rel, wu, ww. simpl. repeat split; eauto. }
  split.
  - intros user item rating preference u v.
    destruct (step_unit_confidence base user item rating preference wu ww Hrel)
      as (Hr & Hm & Ho & _).
    auto.
  - intros data_loader epochs u v.
    destruct (batch_fit_unit_confidence base data_loader epochs wu ww Hrel)
      as (Hr & Hm & Ho & _).
    auto.
Qed.

(** ** Persistence *)

Lemma same_shape_copy c s :
  same_shape c s = true -> mkEmbedding (embedding_dim c) (weight s) = s.
Proof.
  unfold same_shape. intros H. apply andb_true_iff in H as [_ H].
  apply Nat.eqb_eq in H. rewrite H. now destruct s.
Qed.

(** C8. [save path], for a path that can be written to, returns having
    written the state dictionary of the model, which is a function of the
    model's parameters alone, to the file that [path] names, and changes
    nothing else; [load path] on an engine around a fresh model whose tables
    have the shapes of the saved ones (and as many other parameters) then
    returns with the saved tables and other parameters in that model,
    exactly, and with the objective, the optimizer, the confidence function
    and the device of that engine as they were. *)
Theorem save_then_load_restores_tables
    (path : string) (w : World) (fresh : Step) (U V U' V' : Embedding) :
  writable path = true ->
  user_embeddings (model (self w)) = Has U ->
  item_embeddings (model (self w)) = Has V ->
  user_embeddings (model fresh) = Has U' ->
  item_embeddings (model fresh) = Has V' ->
  same_shape U' U = true ->
  same_shape V' V = true ->
  length (extra (model fresh)) = length (extra (model (self w))) ->
  exists w1 w2,
    save path w = (Ok tt, w1)
    /\ disk w1 = <[file_of path := state_dict (model (self w))]> (disk w)
    /\ self w1 = self w
    /\ (forall w', parameters (model (self w')) = parameters (model (self w))
               -> disk (snd (save path w')) !! file_of path
                  = disk w1 !! file_of path)
    /\ load path (set_self w1 fresh) = (Ok tt, w2)
    /\ user_embeddings (model (self w2)) = Has U
    /\ item_embeddings (model (self w2)) = Has V
    /\ extra (model (self w2)) = extra (model (self w))
    /\ objective (self w2) = objective fresh
    /\ optimizer (self w2) = optimizer fresh
    /\ conf_func (self w2) = conf_func fresh
    /\ device (self w2) = device fresh.
Proof.
  intros Hw HU HV HU' HV' HsU HsV Hx.
  exists (set_disk w (<[file_of path := state_dict (model (self w))]> (disk w))).
  eexists.
  split; [unfold save, torch_save; unfold_monad; simpl; now rewrite Hw |].
  do 2 (split; [reflexivity |]).
  split.
  { intros w' Hp. unfold save, torch_save. unfold_monad. simpl. rewrite Hw.
    simpl. rewrite !lookup_insert_eq. f_equal. unfold state_dict.
    unfold parameters in Hp. now injection Hp as -> -> ->. }
  unfold load, torch_load, load_state_dict. unfold_monad. simpl.
  rewrite lookup_insert_eq. unfold state_dict. simpl.
  rewrite HU, HV, HU', HV'. simpl. rewrite HsU, HsV.
  unfold load_extra. rewrite Hx, Nat.eqb_refl. simpl.
  rewrite !same_shape_copy by assumption.
  repeat split; reflexivity.
Qed.

(** ** Construction *)

(** C6, as the code has it. On a usable device, construction raises an
    [AttributeError] when the first of the two attributes, the user table
    then the item table, that is not a table is absent, and an
    [AssertionError] when it is [None]; when both are tables, empty or not,
    it returns the engine bound to its five arguments. *)
Theorem init_checks_embeddings
    (m : Model) (obj : Objective) (opt : Optimizer)
    (cf : Tensor -> result Tensor) (dev : string) :
  available dev = true ->
  (user_embeddings m = Missing -> init m obj opt cf dev = Raise AttributeError)
  /\ (user_embeddings m = IsNone ->
      init m obj opt cf dev = Raise AssertionError)
  /\ (forall U, user_embeddings m = Has U -> item_embeddings m = Missing ->
      init m obj opt cf dev = Raise AttributeError)
  /\ (forall U, user_embeddings m = Has U -> item_embeddings m = IsNone ->
      init m obj opt cf dev = Raise AssertionError)
  /\ (forall U V, user_embeddings m = Has U -> item_embeddings m = Has V ->
      init m obj opt cf dev = Ok (mkStep m obj opt cf dev)).
Proof.
  intros Hdev. unfold init. rewrite Hdev.
  repeat split; intros; repeat match goal with H : _ = _ |- _ => rewrite H end;
    reflexivity.
Qed.

(** ** [predict] *)

(** C7, as the code has it. On a usable device, [predict] for a user id
    that is negative or not below the number of rows of the user table
    raises the [IndexError] of the embedding lookup, and the parameters are
    as before the call. *)
Theorem predict_unknown_user_raises_index_error
    (user k : Z) (w : World) (U : Embedding) :
  available (device (self w)) = true ->
  user_embeddings (model (self w)) = Has U ->
  (user < 0 \/ Z.of_nat (num_embeddings U) <= user)%Z ->
  let r := predict user k w in
  fst r = Raise IndexError
  /\ parameters (model (self (snd r))) = parameters (model (self w)).
Proof.
  intros Hdev HU Hout. unfold predict, model_eval. unfold_monad. simpl.
  rewrite Hdev. simpl. rewrite HU. simpl. unfold embedding_lookup.
  replace ((0 <=? user)%Z && (user <? Z.of_nat (num_embeddings U))%Z)
    with false; [now split |].
  symmetry. apply andb_false_iff. destruct Hout.
  - left. now apply Z.leb_gt.
  - right. now apply Z.ltb_ge.
Qed.

Lemma ascending_head xs a l :
  ascending xs (a :: l) = true ->
  forall b, In b l -> (nth a xs 0 <= nth b xs 0)%Qc.
Proof.
  revert a. induction l as [| c l IH]; intros a H b Hb; [destruct Hb |].
  cbn [ascending] in H. apply andb_true_iff in H as [Hac Hl].
  apply Qle_bool_iff in Hac. destruct Hb as [<- | Hb]; [exact Hac |].
  eapply Qcle_trans; [exact Hac | now apply IH].
Qed.

Lemma ascending_tail xs a l : ascending xs (a :: l) = true -> ascending xs l = true.
Proof.
  destruct l as [| b l]; [reflexivity |]. cbn [ascending].
  intros H. now apply andb_true_iff in H as [_ H].
Qed.

Lemma ascending_app xs l1 l2 :
  ascending xs (l1 ++ l2) = true ->
  ascending xs l2 = true
  /\ forall a b, In a l1 -> In b l2 -> (nth a xs 0 <= nth b xs 0)%Qc.
Proof.
  induction l1 as [| c l1 IH]; intros H.
  - split; [exact H | intros a b []].
  - change ((c :: l1) ++ l2) with (c :: (l1 ++ l2)) in H.
    destruct (IH (ascending_tail _ _ _ H)) as [H2 Hle].
    split; [exact H2 |]. intros a b [<- | Ha] Hb.
    + eapply ascending_head; [exact H |]. apply List.in_or_app. now right.
    + now apply Hle.
Qed.

(** What [is_argsort] says. *)
Lemma is_argsort_spec xs p :
  is_argsort xs p = true ->
  length p = length xs
  /\ List.NoDup p
  /\ (forall i, In i p <-> i < length xs)
  /\ ascending xs p = true.
Proof.
  unfold is_argsort. intros H.
  apply andb_true_iff in H as [H Hasc].
  apply andb_true_iff in H as [Hlen Hall].
  apply Nat.eqb_eq in Hlen.
  assert (Hincl : incl (seq 0 (length xs)) p).
  { intros i Hi. rewrite List.forallb_forall in Hall.
    apply Hall in Hi. apply List.existsb_exists in Hi as (j & Hj & Hij).
    apply Nat.eqb_eq in Hij. now subst. }
  assert (Hle : length p <= length (seq 0 (length xs))).
  { rewrite List.length_seq. lia. }
  pose proof (List.seq_NoDup (length xs) 0) as Hnd.
  repeat split; try assumption.
  - now apply (List.NoDup_incl_NoDup Hnd Hle).
  - intros Hi.
    apply (List.NoDup_length_incl Hnd Hle Hincl), List.in_seq in Hi. lia.
  - intros Hi. apply Hincl, List.in_seq. lia.
Qed.

(** C1, as the code has it. On a usable device, for a user id within the
    user table, tables of the same dimension, at least two items and
    [1 <= k <= number of items], and whichever order [argsort] gives to
    equal scores, [predict user k] returns [k] distinct item ids, ordered by
    ascending score (the best one last), such that no item left out has a
    score above that of an item returned. *)
Theorem predict_returns_top_k_ascending
    (user k : Z) (w : World) (U V : Embedding) :
  available (device (self w)) = true ->
  user_embeddings (model (self w)) = Has U ->
  item_embeddings (model (self w)) = Has V ->
  embedding_dim V = embedding_dim U ->
  (0 <= user < Z.of_nat (num_embeddings U))%Z ->
  2 <= num_embeddings V ->
  (1 <= k <= Z.of_nat (num_embeddings V))%Z ->
  is_argsort (item_scores U V user) (argsort (item_scores U V user)) = true ->
  exists ids,
    fst (predict user k w) = Ok ids
    /\ length ids = Z.to_nat k
    /\ List.NoDup ids
    /\ (forall i, In i ids -> i < num_embeddings V)
    /\ ascending (item_scores U V user) ids = true
    /\ (forall i j, In i ids -> j < num_embeddings V -> ~ In j ids ->
        (nth j (item_scores U V user) 0 <= nth i (item_scores U V user) 0)%Qc).
Proof.
  intros Hdev HU HV Hdim Huser Hn Hk Hsort.
  set (scores := item_scores U V user) in *.
  assert (Hlen : length scores = num_embeddings V).
  { unfold scores, item_scores, num_embeddings. apply List.length_map. }
  destruct (is_argsort_spec _ _ Hsort) as (Hpl & Hnd & Hin & Hasc).
  rewrite Hlen in Hpl, Hin.
  set (p := argsort scores) in *.
  set (n := num_embeddings V) in *.
  exists (skipn (n - Z.to_nat k) p).
  assert (Hsplit : firstn (n - Z.to_nat k) p ++ skipn (n - Z.to_nat k) p = p)
    by apply List.firstn_skipn.
  split.
  { unfold predict, model_eval. unfold_monad. simpl. rewrite Hdev. simpl.
    rewrite HU, HV. simpl. unfold embedding_lookup.
    replace ((0 <=? user)%Z && (user <? Z.of_nat (num_embeddings U))%Z)
      with true by (symmetry; apply andb_true_iff; split;
                    [apply Z.leb_le | apply Z.ltb_lt]; lia).
    simpl. unfold matmul_transpose. simpl. rewrite Hdim, Nat.eqb_refl. simpl.
    fold (item_scores U V user). fold scores.
    assert (Hsq : squeeze scores = Vector scores).
    { destruct scores as [| x [| y l]]; simpl in Hlen; try reflexivity;
        fold n in Hlen; lia. }
    rewrite Hsq. simpl. fold p. rewrite Hpl. f_equal. f_equal.
    replace (- k <? 0)%Z with true by (symmetry; apply Z.ltb_lt; lia).
    lia. }
  split; [rewrite List.length_skipn; lia |].
  split; [rewrite <- Hsplit in Hnd; now apply List.NoDup_app_remove_l in Hnd |].
  split.
  { intros i Hi. apply Hin. rewrite <- Hsplit. apply List.in_or_app. now right. }
  rewrite <- Hsplit in Hasc. apply ascending_app in Hasc as [Hasc Hle].
  split; [exact Hasc |].
  intros i j Hi Hj Hnot. apply Hle; [| exact Hi].
  apply Hin in Hj. rewrite <- Hsplit in Hj.
  apply List.in_app_or in Hj as [Hj | Hj]; [exact Hj | contradiction].
Qed.

(** ** [batch_fit] and the number of columns *)

Lemma for_each_fit_batch_device ds w :
  device (self (snd (for_each fit_batch ds w))) = device (self w).
Proof.
  revert w. induction ds as [| b ds IH]; intros w; [reflexivity |].
  cbn [for_each]. unfold bind.
  pose proof (fit_batch_frame b w) as Hfr. cbv zeta in Hfr.
  destruct (fit_batch b w) as [[[] | e] w1]; simpl in *.
  - rewrite IH. tauto.
  - tauto.
Qed.

Lemma column_first_three features j :
  j < 3 -> 3 <= ncols features ->
  column (first_three features) j = column features j.
Proof.
  intros Hj Hc. unfold column, first_three. simpl.
  replace (j <? 3) with true by (symmetry; apply Nat.ltb_lt; lia).
  replace (j <? ncols features) with true by (symmetry; apply Nat.ltb_lt; lia).
  do 2 f_equal. rewrite List.map_map. apply List.map_ext. intros r.
  rewrite List.nth_firstn.
  now replace (j <? 3) with true by (symmetry; apply Nat.ltb_lt; lia).
Qed.

Lemma fit_batch_first_three features preferences w :
  3 <= ncols features ->
  fit_batch (features, preferences) w
  = fit_batch (first_three features, preferences) w.
Proof.
  intros Hc. rewrite !fit_batch_unfold.
  now rewrite !column_first_three by lia.
Qed.

Lemma for_each_replace {A} (body : A -> M unit) pre x y post w :
  (forall w', body x w' = body y w') ->
  for_each body (pre ++ x :: post) w = for_each body (pre ++ y :: post) w.
Proof.
  intros Hxy. rewrite !for_each_app. apply bind_congr. intros _ w1 _.
  cbn [for_each]. unfold bind. now rewrite Hxy.
Qed.

Lemma for_each_pointwise {A} (body body' : A -> M unit) l w :
  (forall x w', body x w' = body' x w') ->
  for_each body l w = for_each body' l w.
Proof.
  intros H. revert w. induction l as [| x l IH]; intros w; [reflexivity |].
  cbn [for_each]. unfold bind. rewrite H.
  destruct (body' x w) as [[[] | e] w1]; [apply IH | reflexivity].
Qed.

(** C2, as the code has it. On a usable device and for at least one
    epoch, a batch whose feature tensor has fewer than 3 columns makes
    [batch_fit] raise the [IndexError] of the column slicing when it
    reaches that batch, with the state as the batches before it left it:
    the model is not called for it and it changes no parameter. A feature
    tensor of more than 3 columns is not rejected: [batch_fit] does with it
    what it does with its first three columns. *)
Theorem batch_fit_column_check
    (features : Matrix) (preferences : Tensor)
    (pre post : list (Matrix * Tensor)) (epochs : Z) (w w1 : World) :
  available (device (self w)) = true ->
  (0 < epochs)%Z ->
  for_each fit_batch pre (train_world w) = (Ok tt, w1) ->
  (ncols features < 3 ->
   batch_fit (pre ++ (features, preferences) :: post) epochs w
   = (Raise IndexError, w1))
  /\ (3 <= ncols features ->
      batch_fit (pre ++ (features, preferences) :: post) epochs w
      = batch_fit (pre ++ (first_three features, preferences) :: post)
                  epochs w).
Proof.
  intros Hdev Hep Hpre. split; intros Hc.
  - unfold batch_fit.
    rewrite (bind_ok _ _ _ tt (train_world w)) by reflexivity.
    unfold range. destruct (Z.to_nat epochs) as [| n] eqn:Hn; [lia |].
    cbn [seq for_each].
    apply bind_raise. rewrite for_each_app.
    rewrite (bind_ok _ _ _ tt w1 Hpre). cbn [for_each].
    apply bind_raise. apply fit_batch_short; [exact Hc |].
    pose proof (for_each_fit_batch_device pre (train_world w)) as Hd.
    rewrite Hpre in Hd. simpl in Hd. now rewrite Hd.
  - unfold batch_fit. apply bind_congr. intros _ w2 _.
    apply for_each_pointwise. intros _ w3.
    apply for_each_replace. intros w4. now apply fit_batch_first_three.
Qed.

(** ** The stable [argsort] is an [argsort] *)

Lemma insert_index_length xs i l :
  length (insert_index xs i l) = S (length l).
Proof.
  induction l as [| j l IH]; simpl; [reflexivity |].
  destruct (Qle_bool _ _); simpl; now rewrite ?IH.
Qed.

Lemma insert_index_in xs i l j :
  In j (insert_index xs i l) <-> j = i \/ In j l.
Proof.
  induction l as [| c l IH]; simpl.
  - intuition.
  - destruct (Qle_bool _ _); simpl; rewrite ?IH; intuition.
Qed.

Lemma Qle_bool_total (a b : Q) : Qle_bool a b = false -> Qle_bool b a = true.
Proof.
  intros H. apply Qle_bool_iff. apply Qlt_le_weak. apply Qnot_le_lt.
  intros Hle. apply Qle_bool_iff in Hle. congruence.
Qed.

Lemma ascending_cons xs a b l :
  ascending xs (a :: b :: l)
  = Qle_bool (nth a xs 0%Qc) (nth b xs 0%Qc) && ascending xs (b :: l).
Proof. reflexivity. Qed.

Lemma insert_index_ascending xs i l :
  ascending xs l = true -> ascending xs (insert_index xs i l) = true.
Proof.
  induction l as [| j l IH]; intros H; [reflexivity |].
  cbn [insert_index].
  destruct (Qle_bool (nth j xs 0%Qc) (nth i xs 0%Qc)) eqn:Hji.
  - specialize (IH (ascending_tail _ _ _ H)).
    destruct l as [| c l].
    + simpl. now rewrite Hji.
    + rewrite ascending_cons in H. apply andb_true_iff in H as [Hjc Hl].
      cbn [insert_index] in *.
      destruct (Qle_bool (nth c xs 0%Qc) (nth i xs 0%Qc)).
      * rewrite ascending_cons. now rewrite Hjc, IH.
      * rewrite ascending_cons. now rewrite Hji, IH.
  - rewrite ascending_cons. rewrite H. now rewrite (Qle_bool_total _ _ Hji).
Qed.

Lemma fold_insert_spec xs ixs acc :
  let r := fold_left (fun acc i => insert_index xs i acc) ixs acc in
  length r = length acc + length ixs
  /\ (forall j, In j r <-> In j acc \/ In j ixs)
  /\ (ascending xs acc = true -> ascending xs r = true).
Proof.
  revert acc. induction ixs as [| i ixs IH]; intros acc; simpl.
  - split; [lia |]. split; [intros j; tauto | auto].
  - destruct (IH (insert_index xs i acc)) as (Hl & Hi & Ha).
    split; [rewrite Hl, insert_index_length; lia |].
    split.
    + intros j. rewrite Hi, insert_index_in. intuition.
    + intros H. now apply Ha, insert_index_ascending.
Qed.

Lemma stable_argsort_is_argsort xs : is_argsort xs (stable_argsort xs) = true.
Proof.
  unfold is_argsort, stable_argsort.
  destruct (fold_insert_spec xs (seq 0 (length xs)) []) as (Hl & Hi & Ha).
  rewrite Hl, List.length_seq, Nat.eqb_refl, (Ha eq_refl). simpl.
  rewrite andb_true_r. apply List.forallb_forall. intros i Hin.
  apply List.existsb_exists. exists i. split; [| apply Nat.eqb_refl].
  apply Hi. now right.
Qed.

End Properties.

(** * Further properties of the methods *)

Section Edges.
Context `{RT : Runtime}.

Lemma raise_pair {A} (p : result A * World) (e : exn) :
  fst p = Raise e -> p = (Raise e, snd p).
Proof. destruct p as [r w]. simpl. now intros ->. Qed.

(** ** [predict] outside [1 <= k <= number of items] *)

(** What [predict] computes once the lookups have succeeded. *)
Lemma predict_scores (user k : Z) (w : World) (U V : Embedding) :
  available (device (self w)) = true ->
  user_embeddings (model (self w)) = Has U ->
  item_embeddings (model (self w)) = Has V ->
  embedding_dim V = embedding_dim U ->
  (0 <= user < Z.of_nat (num_embeddings U))%Z ->
  fst (predict user k w)
  = slice_from (tensor_argsort (squeeze (item_scores U V user))) (- k).
Proof.
  intros Hdev HU HV Hdim Huser.
  unfold predict, model_eval. unfold_monad. simpl. rewrite Hdev. simpl.
  rewrite HU, HV. simpl. unfold embedding_lookup.
  replace ((0 <=? user)%Z && (user <? Z.of_nat (num_embeddings U))%Z)
    with true by (symmetry; apply andb_true_iff; split;
                  [apply Z.leb_le | apply Z.ltb_lt]; lia).
  simpl. unfold matmul_transpose. simpl. rewrite Hdim, Nat.eqb_refl.
  reflexivity.
Qed.

Lemma item_scores_length U V user :
  length (item_scores U V user) = num_embeddings V.
Proof. unfold item_scores, num_embeddings. apply List.length_map. Qed.

Lemma squeeze_vector (xs : list R) :
  length xs <> 1 -> squeeze xs = Vector xs.
Proof. destruct xs as [| x [| y l]]; simpl; intros H; try reflexivity; lia. Qed.


(** X1. With [k = 0], or with [k] at least the number of items, [predict]
    returns every item id: the whole ranking, each id once, in ascending
    order of score. For [k = 0] that is because [-k] is [0] and the slice
    [[-0:]] starts at the beginning. *)
Theorem predict_returns_every_item
    (user k : Z) (w : World) (U V : Embedding) :
  available (device (self w)) = true ->
  user_embeddings (model (self w)) = Has U ->
  item_embeddings (model (self w)) = Has V ->
  embedding_dim V = embedding_dim U ->
  (0 <= user < Z.of_nat (num_embeddings U))%Z ->
  num_embeddings V <> 1 ->
  (k = 0 \/ Z.of_nat (num_embeddings V) <= k)%Z ->
  is_argsort (item_scores U V user) (argsort (item_scores U V user)) = true ->
  exists ids,
    fst (predict user k w) = Ok ids
    /\ length ids = num_embeddings V
    /\ List.NoDup ids
    /\ (forall i, In i ids <-> i < num_embeddings V)
    /\ ascending (item_scores U V user) ids = true.
Proof.
  intros Hdev HU HV Hdim Huser Hn Hk Hsort.
  rewrite (predict_scores user k w U V) by assumption.
  pose proof (item_scores_length U V user) as Hlen.
  destruct (is_argsort_spec _ _ Hsort) as (Hpl & Hnd & Hin & Hasc).
  rewrite Hlen in Hpl, Hin.
  rewrite squeeze_vector by lia. simpl.
  exists (argsort (item_scores U V user)).
  split; [| now repeat split; try apply Hin].
  f_equal. rewrite Hpl.
  replace (Z.to_nat _) with 0; [reflexivity |].
  destruct Hk as [-> | Hk]; simpl Z.opp.
  - simpl. lia.
  - destruct (- k <? 0)%Z eqn:Hneg; lia.
Qed.

(** X2. With a single item in the item table, [predict] raises an
    [IndexError] whatever [k] is: [squeeze()] removes both dimensions of
    the one score, and a 0-dimensional tensor cannot be sliced. *)
Theorem predict_single_item_raises
    (user k : Z) (w : World) (U V : Embedding) :
  available (device (self w)) = true ->
  user_embeddings (model (self w)) = Has U ->
  item_embeddings (model (self w)) = Has V ->
  embedding_dim V = embedding_dim U ->
  (0 <= user < Z.of_nat (num_embeddings U))%Z ->
  num_embeddings V = 1 ->
  fst (predict user k w) = Raise IndexError.
Proof.
  intros Hdev HU HV Hdim Huser Hn.
  rewrite (predict_scores user k w U V) by assumption.
  pose proof (item_scores_length U V user) as Hlen. rewrite Hn in Hlen.
  destruct (item_scores U V user) as [| x [| y l]]; try discriminate.
  reflexivity.
Qed.


(** X4. Whatever it returns or raises, [predict] leaves the model in
    evaluation mode and changes nothing else: the parameters, the
    accumulated gradient, the objective, the optimizer and the files are as
    before, and the trace is as before: no forward pass of the model, no
    backward pass and no call of the optimizer is made. *)
Theorem predict_only_switches_to_eval (user k : Z) (w : World) :
  let w' := snd (predict user k w) in
  training (model (self w')) = false
  /\ parameters (model (self w')) = parameters (model (self w))
  /\ grad (model (self w')) = grad (model (self w))
  /\ objective (self w') = objective (self w)
  /\ optimizer (self w') = optimizer (self w)
  /\ disk w' = disk w
  /\ trace w' = trace w.
Proof.
  unfold predict, model_eval. unfold_monad. simpl.
  destruct (available (device (self w))); simpl; [| now repeat split].
  destruct (call_embedding _ _) as [ue | e]; simpl; [| now repeat split].
  destruct (get_weight _) as [ie | e]; simpl; [| now repeat split].
  destruct (matmul_transpose _ _) as [sc | e]; simpl; now repeat split.
Qed.

(** X5. When the user table and the item table have different embedding
    dimensions, [predict] for a known user raises the [RuntimeError] of the
    matrix product. *)
Theorem predict_dimension_mismatch_raises
    (user k : Z) (w : World) (U V : Embedding) :
  available (device (self w)) = true ->
  user_embeddings (model (self w)) = Has U ->
  item_embeddings (model (self w)) = Has V ->
  embedding_dim V <> embedding_dim U ->
  (0 <= user < Z.of_nat (num_embeddings U))%Z ->
  fst (predict user k w) = Raise RuntimeError.
Proof.
  intros Hdev HU HV Hdim Huser.
  unfold predict, model_eval. unfold_monad. simpl. rewrite Hdev. simpl.
  rewrite HU, HV. simpl. unfold embedding_lookup.
  replace ((0 <=? user)%Z && (user <? Z.of_nat (num_embeddings U))%Z)
    with true by (symmetry; apply andb_true_iff; split;
                  [apply Z.leb_le | apply Z.ltb_lt]; lia).
  simpl. unfold matmul_transpose. simpl.
  now replace (embedding_dim V =? embedding_dim U) with false
    by (symmetry; now apply Nat.eqb_neq).
Qed.

(** ** What the training calls leave behind *)

Lemma commit_updates w d :
  updates (trace (snd (commit w d))) = S (updates (trace w)).
Proof.
  unfold commit.
  destruct (update _ _ _ _) as [[[] | x] [s p]].
  - destruct (zero_grad _ _) as [r g']. simpl. rewrite updates_app.
    unfold updates at 2. simpl. lia.
  - simpl. rewrite updates_app. unfold updates at 2. simpl. lia.
Qed.

(** A failure of the shared part: either it came before the optimizer was
    called, and then nothing that is learnt has changed, or the optimizer's
    [step()] was called once. *)
Lemma train_on_raise reduce users items rtngs prefs w e w' :
  train_on reduce users items rtngs prefs w = (Raise e, w') ->
  (updates (trace w') = updates (trace w)
   /\ model (self w') = model (self w)
   /\ optimizer (self w') = optimizer (self w)
   /\ disk w' = disk w)
  \/ updates (trace w') = S (updates (trace w)).
Proof.
  assert (Hev : updates (trace w ++ [EvForward users items])
                = updates (trace w)).
  { rewrite updates_app. unfold updates at 2. simpl. lia. }
  rewrite train_on_eq. unfold train_on_result.
  destruct (forward _ _ _ _ _) as [preds | e0].
  2:{ intros [= _ <-]. left. now repeat split. }
  destruct (conf_func _ _) as [confs | e0].
  2:{ intros [= _ <-]. left. now repeat split. }
  destruct (criterion _ _ _ _) as [loss | e0].
  2:{ intros [= _ <-]. left. now repeat split. }
  destruct (elements (reduce loss)) as [| d [| d' l]];
    try (intros [= _ <-]; left; now repeat split).
  intros H. right.
  match type of H with commit ?w2 d = _ =>
    pose proof (commit_updates w2 d) as Hu end.
  rewrite H in Hu. simpl in Hu. now rewrite Hu, Hev.
Qed.

Lemma fit_batch_raise batch w e w' :
  fit_batch batch w = (Raise e, w') ->
  (updates (trace w') = updates (trace w)
   /\ model (self w') = model (self w)
   /\ optimizer (self w') = optimizer (self w)
   /\ disk w' = disk w)
  \/ updates (trace w') = S (updates (trace w)).
Proof.
  destruct batch as [features preferences].
  destruct (fit_batch_cases features preferences w) as [[e0 H] | (_ & _ & H)];
    rewrite H.
  - intros [= _ <-]. left. now repeat split.
  - apply train_on_raise.
Qed.

Lemma for_each_fit_batch_training ds w :
  training (model (self (snd (for_each fit_batch ds w))))
  = training (model (self w)).
Proof.
  revert w. induction ds as [| b ds IH]; intros w; [reflexivity |].
  cbn [for_each]. unfold bind.
  pose proof (fit_batch_frame b w) as Hfr. cbv zeta in Hfr.
  destruct (fit_batch b w) as [[[] | e] w1]; simpl in *.
  - rewrite IH. tauto.
  - tauto.
Qed.

(** X6. [step] and [batch_fit] always leave the model in training mode,
    also when they raise: a [predict] in between has to switch it back, and
    does, to evaluation mode. *)
Theorem training_calls_leave_train_mode (w : World) :
  (forall user item rating preference,
     training (model (self (snd (step user item rating preference w)))) = true)
  /\ (forall data_loader epochs,
        training (model (self (snd (batch_fit data_loader epochs w)))) = true).
Proof.
  split.
  - intros user item rating preference.
    destruct (step_cases user item rating preference w)
      as [[e H] | (rtng & pref & _ & _ & _ & H)]; rewrite H; [reflexivity |].
    pose proof (train_on_frame (fun l => l) user item rtng pref
                  (train_world w)) as Hfr.
    cbv zeta in Hfr. destruct Hfr as (_ & Ht & _). now rewrite Ht.
  - intros data_loader epochs. rewrite batch_fit_eq.
    now rewrite for_each_fit_batch_training.
Qed.

(** X7. With no epoch to run ([epochs <= 0]) or an empty loader,
    [batch_fit] returns having done nothing but switch the model to
    training mode: no call of the model, no update. *)
Theorem batch_fit_nothing_to_do
    (data_loader : list (Matrix * Tensor)) (epochs : Z) (w : World) :
  (epochs <= 0)%Z \/ data_loader = [] ->
  batch_fit data_loader epochs w = (Ok tt, train_world w).
Proof.
  intros H. rewrite batch_fit_eq. destruct H as [H | ->].
  - now replace (Z.to_nat epochs) with 0 by lia.
  - induction (Z.to_nat epochs) as [| n IH]; [reflexivity | exact IH].
Qed.

(** X8. Epochs add up: for [a, b >= 0], [batch_fit] for [a + b] epochs does
    what [batch_fit] for [a] epochs followed, if it returns, by [batch_fit]
    for [b] epochs on the same loader does; outcome and state are equal. *)
Theorem batch_fit_epochs_add
    (data_loader : list (Matrix * Tensor)) (a b : Z) (w : World) :
  (0 <= a)%Z -> (0 <= b)%Z ->
  batch_fit data_loader (a + b) w
  = (batch_fit data_loader a ;;; batch_fit data_loader b) w.
Proof.
  intros Ha Hb. rewrite batch_fit_eq.
  replace (Z.to_nat (a + b)) with (Z.to_nat a + Z.to_nat b) by lia.
  rewrite List.repeat_app, List.concat_app, for_each_app.
  unfold bind. rewrite (batch_fit_eq data_loader a).
  pose proof (for_each_fit_batch_training
                (concat (repeat data_loader (Z.to_nat a))) (train_world w))
    as Htr.
  destruct (for_each fit_batch _ (train_world w)) as [[[] | e] w1];
    [| reflexivity].
  simpl in Htr. rewrite batch_fit_eq. now rewrite train_world_same.
Qed.

(** X9. [batch_fit] has no rollback: when a batch raises, [batch_fit]
    raises the same exception and stops there, in the state that batch
    left; the updates of the batches before it stay and no later batch or
    epoch is run. The failing batch itself either reached
    [optimizer.step()], or changed neither the model nor the optimizer. *)
Theorem batch_fit_stops_at_failing_batch
    (pre post : list (Matrix * Tensor)) (batch : Matrix * Tensor)
    (epochs : Z) (w w1 w2 : World) (e : exn) :
  (0 < epochs)%Z ->
  for_each fit_batch pre (train_world w) = (Ok tt, w1) ->
  fit_batch batch w1 = (Raise e, w2) ->
  batch_fit (pre ++ batch :: post) epochs w = (Raise e, w2)
  /\ updates (trace w1) = updates (trace w) + length pre
  /\ ((updates (trace w2) = updates (trace w1)
       /\ model (self w2) = model (self w1)
       /\ optimizer (self w2) = optimizer (self w1))
      \/ updates (trace w2) = S (updates (trace w1))).
Proof.
  intros Hep Hpre Hb. split; [| split].
  - unfold batch_fit.
    rewrite (bind_ok _ _ _ tt (train_world w)) by reflexivity.
    unfold range. destruct (Z.to_nat epochs) as [| n] eqn:Hn; [lia |].
    cbn [seq for_each]. apply bind_raise. rewrite for_each_app.
    rewrite (bind_ok _ _ _ tt w1 Hpre). cbn [for_each].
    now apply bind_raise.
  - apply for_each_fit_batch_trace in Hpre.
    rewrite Hpre, updates_app, updates_batches. reflexivity.
  - apply fit_batch_raise in Hb as [(Hu & Hm & Ho & _) | Hu]; auto.
Qed.


(** X11. [step] has no reduction of the loss: on tensors for which the
    model and the confidence function return and the objective returns a
    loss of several elements (or of none), [step] calls the model and then
    raises the [RuntimeError] of [backward], with the parameters and the
    optimizer unchanged, while [batch_fit] on a batch holding the same
    tensors takes the mean and calls [optimizer.step()] once; it returns
    when the optimizer's methods do. *)
Theorem step_raises_where_batch_fit_averages
    (features : Matrix) (prefs : Tensor) (w : World) (preds loss : GTensor)
    (confs : Tensor) :
  let users := column_values features 0 in
  let items := column_values features 1 in
  let rtngs := column_values features 2 in
  available (device (self w)) = true ->
  3 <= ncols features ->
  forward (model (self w)) (parameters (model (self w))) true users items
    = Ok preds ->
  conf_func (self w) rtngs = Ok confs ->
  criterion (objective (self w))
    (weight_slot (injected (objective (self w)) confs)) preds prefs
    = Ok loss ->
  numel loss <> 1 ->
  let s := step users items (Some rtngs) (Some prefs) w in
  fst s = Raise RuntimeError
  /\ trace (snd s) = trace w ++ [EvForward users items]
  /\ parameters (model (self (snd s))) = parameters (model (self w))
  /\ optimizer (self (snd s)) = optimizer (self w)
  /\ (optimizer_returns (optimizer (self w)) ->
      fst (batch_fit [(features, prefs)] 1 w) = Ok tt)
  /\ updates (trace (snd (batch_fit [(features, prefs)] 1 w)))
     = S (updates (trace w)).
Proof.
  intros users items rtngs Hdev Hc Hfwd Hconf Hobj Hn.
  assert (Hs : step users items (Some rtngs) (Some prefs) w
               = train_on (fun l => l) users items rtngs prefs (train_world w))
    by now apply step_some_eq.
  assert (Hb : batch_fit [(features, prefs)] 1 w
               = train_on mean users items rtngs prefs (train_world w)).
  { rewrite batch_fit_eq. change (Z.to_nat 1) with 1. simpl repeat.
    simpl concat. cbn [for_each]. unfold bind.
    rewrite (fit_batch_some_eq features prefs (train_world w) Hdev Hc).
    fold users items rtngs.
    now destruct (train_on mean users items rtngs prefs (train_world w))
      as [[[] | e] w1]. }
  cbv zeta. rewrite Hs, Hb, !train_on_eq. unfold train_on_result. simpl.
  rewrite parameters_set_training, Hfwd, Hconf, criterion_injected, Hobj.
  assert (Hstep : forall w2,
            exists r,
              match elements loss with
              | [d] => commit w2 d
              | _ => (Raise RuntimeError, w2)
              end = r /\ r = (Raise RuntimeError, w2)).
  { intros w2. eexists. split; [reflexivity |].
    unfold numel in Hn. destruct (elements loss) as [| d [| d' l]];
      try reflexivity. simpl in Hn. lia. }
  match goal with |- context [match elements loss with
                              | [] => (Raise RuntimeError, ?w2) | _ => _ end] =>
    destruct (Hstep w2) as (r & Hr & ->); rewrite Hr end.
  simpl. do 4 (split; [reflexivity |]). split.
  - intros [Hup Hzg]. unfold commit. simpl.
    match goal with |- context [update ?o ?st ?pp ?g] =>
      pose proof (Hup st pp g) as Hu; pose proof (Hzg g) as Hz;
      destruct (update o st pp g) as [ru [su pu]];
      destruct (zero_grad o g) as [rz gz] end.
    simpl in Hu, Hz. now subst ru rz.
  - rewrite commit_updates. simpl. rewrite updates_app.
    unfold updates at 2. simpl. lia.
Qed.

(** X12. The rating reaches the loss only through the objective's [weight]
    attribute: when the objective has no such attribute and the confidence
    function returns on both ratings, or when the confidence function is
    the default one, [step] does the same on the one rating tensor as on
    the other. *)
Theorem step_ignores_rating
    (user item r1 r2 : Tensor) (preference : option Tensor) (w : World) :
  (hasattr_weight (objective (self w)) = false
   /\ (exists c1, conf_func (self w) r1 = Ok c1)
   /\ (exists c2, conf_func (self w) r2 = Ok c2))
  \/ conf_func (self w) = default_conf_func ->
  step user item (Some r1) preference w
  = step user item (Some r2) preference w.
Proof.
  intros H.
  assert (Hinj : exists c1 c2,
            conf_func (self w) r1 = Ok c1 /\ conf_func (self w) r2 = Ok c2
            /\ injected (objective (self w)) c1
               = injected (objective (self w)) c2).
  { destruct H as [(H & [c1 H1] & [c2 H2]) | H].
    - exists c1, c2. repeat split; try assumption.
      unfold injected. now rewrite H.
    - exists (Scalar 1%Qc), (Scalar 1%Qc). now rewrite H. }
  destruct Hinj as (c1 & c2 & H1 & H2 & Hinj).
  assert (Hstep : forall r,
            available (device (self w)) = true ->
            step user item (Some r) preference w
            = (pref <- to_device_opt preference ;;
               train_on (fun l => l) user item r pref) (train_world w)).
  { intros r Hdev. rewrite step_unfold.
    rewrite (bind_ok _ _ _ tt (train_world w)) by reflexivity.
    rewrite (bind_ok _ _ _ user (train_world w)) by now apply to_device_ok.
    rewrite (bind_ok _ _ _ item (train_world w)) by now apply to_device_ok.
    now rewrite (bind_ok _ _ _ r (train_world w)) by now apply to_device_ok. }
  destruct (available (device (self w))) eqn:Hdev.
  - rewrite !Hstep by reflexivity.
    apply bind_congr. intros pref w1 Hp.
    assert (w1 = train_world w) as ->.
    { destruct preference; simpl in Hp; [| discriminate].
      unfold to_device in Hp. simpl in Hp. rewrite Hdev in Hp. congruence. }
    rewrite !train_on_eq. unfold train_on_result. simpl.
    now rewrite H1, H2, Hinj.
  - rewrite !step_unfold.
    rewrite !(bind_ok _ _ w tt (train_world w)) by reflexivity.
    rewrite (bind_raise _ _ _ RuntimeError (train_world w))
      by now apply to_device_raise.
    now rewrite (bind_raise _ _ _ RuntimeError (train_world w))
      by now apply to_device_raise.
Qed.

(** X13. After a call of [step] that returns, the caller's objective is
    what the injection made of it: its [weight] attribute, if it has one,
    holds the confidence that the confidence function returned for this
    call's rating and stays so after the call; an objective without the
    attribute is not given one. *)
Theorem step_leaves_injected_weight
    (user item rtng pref : Tensor) (w w' : World) :
  step user item (Some rtng) (Some pref) w = (Ok tt, w') ->
  exists confs,
    conf_func (self w) rtng = Ok confs
    /\ objective (self w') = injected (objective (self w)) confs
    /\ hasattr_weight (objective (self w'))
       = hasattr_weight (objective (self w)).
Proof.
  destruct (step_cases user item (Some rtng) (Some pref) w)
    as [[e H] | (r & p & [= <-] & [= <-] & _ & H)]; rewrite H;
    [discriminate |].
  rewrite train_on_eq. unfold train_on_result. simpl.
  destruct (forward _ _ _ _ _) as [preds | e]; [| discriminate].
  destruct (conf_func (self w) rtng) as [confs | e]; [| discriminate].
  destruct (criterion _ _ _ _) as [loss | e]; [| discriminate].
  destruct (elements loss) as [| d [| d' l]]; try discriminate.
  intros Hc. exists confs. split; [reflexivity |].
  match type of Hc with commit ?w2 d = _ =>
    pose proof (commit_frame w2 d) as Hfr end.
  rewrite Hc in Hfr. cbv zeta in Hfr. simpl in Hfr.
  destruct Hfr as (_ & _ & Ho & _). rewrite Ho.
  split; [reflexivity |]. apply hasattr_weight_injected.
Qed.

(** X20. When [optimizer.step()] raises, [step] raises the same exception
    and [zero_grad()] is not called: the gradient of this call stays
    accumulated on the parameters, on top of what was there, and the
    parameters and buffers are those the failing method left. *)
Theorem step_optimizer_raise_keeps_gradient
    (user item rtng pref : Tensor) (w : World) (preds loss : GTensor)
    (confs : Tensor) (d : Dual) (x : exn) (s : list R) (p : Parameters) :
  available (device (self w)) = true ->
  forward (model (self w)) (parameters (model (self w))) true user item
    = Ok preds ->
  conf_func (self w) rtng = Ok confs ->
  criterion (objective (self w))
    (weight_slot (injected (objective (self w)) confs)) preds pref
    = Ok loss ->
  elements loss = [d] ->
  update (optimizer (self w)) (opt_state (optimizer (self w)))
         (parameters (model (self w)))
         (gadd (grad (model (self w))) (der d)) = (Raise x, (s, p)) ->
  let r := step user item (Some rtng) (Some pref) w in
  fst r = Raise x
  /\ trace (snd r) = trace w ++ [EvForward user item; EvBackward; EvOptStep]
  /\ grad (model (self (snd r))) = gadd (grad (model (self w))) (der d)
  /\ parameters (model (self (snd r))) = p
  /\ opt_state (optimizer (self (snd r))) = s.
Proof.
  intros Hdev Hfwd Hconf Hobj Hd Hupd. cbv zeta.
  rewrite step_some_eq by assumption.
  rewrite train_on_eq. unfold train_on_result. simpl.
  rewrite parameters_set_training, Hfwd, Hconf, criterion_injected, Hobj, Hd.
  unfold commit. simpl. rewrite parameters_set_training, Hupd. simpl.
  rewrite <- List.app_assoc. destruct p. now repeat split.
Qed.

(** ** Persistence: missing files, mismatching shapes, other paths *)

(** X14. [load] of a path that names a file where nothing was saved raises
    a [FileNotFoundError] and leaves the engine, the files and the trace as
    they were. *)
Theorem load_missing_file_raises (path : string) (w : World) :
  disk w !! file_of path = None ->
  load path w = (Raise FileNotFoundError, w).
Proof.
  intros H. unfold load, torch_load. unfold_monad. now rewrite H.
Qed.

(** X15. [load] is not all or nothing. When the stored user table has
    another shape than the model's and the stored item table and other
    parameters fit, [load] raises a [RuntimeError] and the user table is
    as before, but the item table and the other parameters have already
    been overwritten with the stored ones. The optimizer is untouched. *)
Theorem load_shape_mismatch_is_partial
    (path : string) (w : World) (sd : StateDict) (U V U' V' : Embedding) :
  disk w !! file_of path = Some sd ->
  user_embeddings (model (self w)) = Has U ->
  item_embeddings (model (self w)) = Has V ->
  sd_user sd = Some U' ->
  sd_item sd = Some V' ->
  same_shape U U' = false ->
  same_shape V V' = true ->
  length (extra (model (self w))) = length (sd_extra sd) ->
  let r := load path w in
  fst r = Raise RuntimeError
  /\ user_embeddings (model (self (snd r))) = Has U
  /\ item_embeddings (model (self (snd r))) = Has V'
  /\ extra (model (self (snd r))) = sd_extra sd
  /\ optimizer (self (snd r)) = optimizer (self w).
Proof.
  intros Hd HU HV HsU HsV HshU HshV Hx.
  unfold load, torch_load, load_state_dict. unfold_monad. rewrite Hd.
  simpl. rewrite HU, HV, HsU, HsV. simpl. rewrite HshU, HshV.
  unfold load_extra. rewrite Hx, Nat.eqb_refl. simpl.
  repeat split. f_equal. unfold same_shape in HshV.
  apply andb_true_iff in HshV as [_ HshV]. apply Nat.eqb_eq in HshV.
  rewrite HshV. now destruct V'.
Qed.

Lemma same_shape_refl c : same_shape c c = true.
Proof. unfold same_shape. now rewrite !Nat.eqb_refl. Qed.

Lemma load_table_same (a : attr Embedding) :
  load_table a (attr_to_option a) = (a, true).
Proof.
  destruct a as [| | c]; try reflexivity. simpl.
  rewrite same_shape_refl. now destruct c.
Qed.

(** X16. For a path that can be written to, [save] followed by [load] of
    the same path on the same engine returns and is without effect on the
    engine, whatever the model holds (tables present, [None] or absent):
    the world after the [load] is the world after the [save]. *)
Theorem save_then_load_same_engine (path : string) (w : World) :
  writable path = true ->
  fst (save path w) = Ok tt
  /\ load path (snd (save path w)) = (Ok tt, snd (save path w)).
Proof.
  intros Hw.
  unfold save, load, torch_save, torch_load, load_state_dict. unfold_monad.
  simpl. rewrite Hw. simpl. split; [reflexivity |].
  rewrite lookup_insert_eq. unfold state_dict. simpl.
  rewrite !load_table_same. unfold load_extra. rewrite Nat.eqb_refl. simpl.
  unfold set_disk. do 2 f_equal.
  destruct w as [[[u i x t g f] o op cf dv] dk tr]. reflexivity.
Qed.

(** X17. [save] writes at most one file and changes nothing else. The
    engine and the trace are as before. When the path cannot be written
    to, [save] raises a [RuntimeError] and no file changes. What [load]
    does with a path that names another file is what it did before the
    [save]; a path that names the same file, be it another string, reads
    what was saved. *)
Theorem save_writes_one_file (p q : string) (w : World) :
  let r := save p w in
  let w1 := snd r in
  self w1 = self w
  /\ trace w1 = trace w
  /\ (writable p = false -> r = (Raise RuntimeError, w))
  /\ (file_of q <> file_of p ->
      disk w1 !! file_of q = disk w !! file_of q
      /\ fst (load q w1) = fst (load q w)
      /\ self (snd (load q w1)) = self (snd (load q w)))
  /\ (writable p = true -> file_of q = file_of p ->
      fst r = Ok tt
      /\ disk w1 !! file_of q = Some (state_dict (model (self w)))).
Proof.
  unfold save, torch_save. unfold_monad. simpl.
  destruct (writable p) eqn:Hw; simpl.
  - split; [reflexivity |]. split; [reflexivity |].
    split; [discriminate |]. split.
    + intros Hpq.
      assert (Hq : <[file_of p := state_dict (model (self w))]> (disk w)
                     !! file_of q = disk w !! file_of q)
        by (apply lookup_insert_ne; congruence).
      split; [exact Hq |].
      unfold load, torch_load, load_state_dict. unfold_monad. simpl.
      rewrite Hq. destruct (disk w !! file_of q) as [sd |]; simpl;
        [| now split].
      destruct (load_table _ (sd_user sd)) as [u oku].
      destruct (load_table _ (sd_item sd)) as [i oki].
      destruct (load_extra _ _) as [x okx].
      now destruct (oku && oki && okx).
    + intros _ Hpq. split; [reflexivity |]. rewrite Hpq.
      apply lookup_insert_eq.
  - split; [reflexivity |]. split; [reflexivity |].
    split; [reflexivity |]. split; [| discriminate].
    intros _. now repeat split.
Qed.

(** ** Construction and what it guarantees to [predict] *)

(** X18. Construction returns an engine exactly when the device can be
    used and both embedding attributes are tables, and the engine then
    holds the five arguments as given. On an engine so constructed,
    [predict] never fails on a missing or [None] table: it returns, or
    raises the [IndexError] of the lookup or of the slice, or the
    [RuntimeError] of the matrix product. *)
Theorem init_guarantees_tables
    (m : Model) (obj : Objective) (opt : Optimizer)
    (cf : Tensor -> result Tensor) (dev : string) (e : Step) :
  init m obj opt cf dev = Ok e ->
  e = mkStep m obj opt cf dev
  /\ available dev = true
  /\ (exists U V, user_embeddings m = Has U /\ item_embeddings m = Has V)
  /\ (forall user k dk tr,
        let r := fst (predict user k (mkWorld e dk tr)) in
        (exists ids, r = Ok ids) \/ r = Raise IndexError
        \/ r = Raise RuntimeError).
Proof.
  unfold init. destruct (available dev) eqn:Hdev; [| discriminate].
  destruct (user_embeddings m) as [| | U] eqn:HU; try discriminate.
  destruct (item_embeddings m) as [| | V] eqn:HV; try discriminate.
  simpl. intros [= <-]. repeat split; eauto.
  intros user k dk tr. unfold predict, model_eval. unfold_monad. simpl.
  rewrite Hdev. simpl. rewrite HU, HV. simpl.
  destruct (embedding_lookup U user) as [row | x] eqn:Hl; simpl.
  - unfold matmul_transpose. simpl.
    destruct (embedding_dim V =? embedding_dim U); simpl; [| auto].
    destruct (squeeze _) as [x | xs]; simpl; eauto.
  - unfold embedding_lookup in Hl.
    destruct ((0 <=? user)%Z && _); [discriminate |].
    injection Hl as <-. auto.
Qed.

End Edges.

(** * The theorems at work on the small engine *)

Lemma step_requires_rating_and_preference_witness :
  let r := @step cpu_runtime (Vector [qz 0]) (Vector [qz 1]) None
                 (Some (Vector [qz 1])) demo_world in
  (exists e, fst r = Raise e)
  /\ (@available cpu_runtime (device (self demo_world)) = true ->
      fst r = Raise AttributeError)
  /\ trace (snd r) = trace demo_world
  /\ forwards (trace (snd r)) = forwards (trace demo_world)
  /\ parameters (model (self (snd r))) = parameters (model (self demo_world))
  /\ grad (model (self (snd r))) = grad (model (self demo_world))
  /\ optimizer (self (snd r)) = optimizer (self demo_world).
Proof.
  apply (@step_requires_rating_and_preference cpu_runtime).
  left. reflexivity.
Defined.

Lemma step_applies_one_update_witness :
  exists s p w',
    @step cpu_runtime (Vector [qz 0]) (Vector [qz 1]) (Some (Vector [qz 1]))
          (Some (Vector [qz 1])) demo_world = (Ok tt, w')
    /\ trace w' = trace demo_world
                  ++ [EvForward (Vector [qz 0]) (Vector [qz 1]); EvBackward;
                      EvOptStep; EvZeroGrad]
    /\ updates (trace w') = S (updates (trace demo_world))
    /\ opt_state (optimizer (self w')) = s
    /\ parameters (model (self w')) = p
    /\ grad (model (self w')) = [].
Proof.
  do 2 eexists.
  eapply (@step_applies_one_update cpu_runtime (Vector [qz 0])
            (Vector [qz 1]) (Vector [qz 1]) (Vector [qz 1]) demo_world).
  - reflexivity.
  - vm_compute; reflexivity.
  - reflexivity.
  - vm_compute; reflexivity.
  - vm_compute; reflexivity.
  - vm_compute; reflexivity.
  - reflexivity.
Defined.

(** C5 at a call on two aligned observations with the squared error of
    each: [step] calls the model, raises the [RuntimeError] of [backward]
    and makes no update, the parameters staying as they were, while
    [batch_fit] on the same two observations as one batch returns with one
    update made. *)
Lemma step_two_examples_makes_no_update :
  let users := Vector [qz 0; qz 1] in
  let items := Vector [qz 1; qz 2] in
  let rtngs := Vector [qz 1; qz 1] in
  let prefs := Vector [qz 1; qz 0] in
  let s := @step cpu_runtime users items (Some rtngs) (Some prefs)
                 demo_world in
  fst s = Raise RuntimeError
  /\ updates (trace (snd s)) = 0
  /\ forwards (trace (snd s)) = 1
  /\ table_values (user_embeddings (model (self (snd s)))) = [[1]; [2]]%Q
  /\ table_values (item_embeddings (model (self (snd s))))
     = [[1]; [3]; [2]]%Q
  /\ fst (@batch_fit cpu_runtime [(two_example_features, prefs)] 1
                     demo_world) = Ok tt
  /\ updates (trace (snd (@batch_fit cpu_runtime
                            [(two_example_features, prefs)] 1 demo_world)))
     = 1.
Proof. vm_compute. repeat split. Qed.

(** The update of that call, number by number: user 0 and item 1 score
    1 * 3 against the target 1, and each moves by the gradient of the
    squared error. *)
Example step_demo_values :
  let w' := snd (@step cpu_runtime (Vector [qz 0]) (Vector [qz 1])
                       (Some (Vector [qz 1])) (Some (Vector [qz 1]))
                       demo_world) in
  table_values (user_embeddings (model (self w'))) = [[-11]; [2]]%Q
  /\ table_values (item_embeddings (model (self w'))) = [[1]; [-1]; [2]]%Q.
Proof. vm_compute. split; reflexivity. Qed.

Lemma batch_fit_updates_once_per_batch_witness :
  let w' := snd (@batch_fit cpu_runtime demo_loader 2 demo_world) in
  @after_batches cpu_runtime (train_world demo_world)
                 (concat (repeat demo_loader (Z.to_nat 2))) = Some w'
  /\ trace w' = trace demo_world
                ++ concat (repeat (flat_map batch_events demo_loader)
                                  (Z.to_nat 2))
  /\ updates (trace w')
     = updates (trace demo_world) + Z.to_nat 2 * length demo_loader.
Proof.
  cbv zeta.
  refine (@batch_fit_updates_once_per_batch cpu_runtime demo_loader 2
            demo_world _ _).
  apply ok_pair. vm_compute. reflexivity.
Defined.

(** The parameters after those two epochs, number by number, as the
    optimizer's rule gives them batch after batch. *)
Example batch_fit_demo_values :
  let w' := snd (@batch_fit cpu_runtime demo_loader 1 demo_world) in
  table_values (user_embeddings (model (self w'))) = [[-11]; [-14]]%Q
  /\ table_values (item_embeddings (model (self w'))) = [[1]; [-1]; [-14]]%Q.
Proof. vm_compute. split; reflexivity. Qed.

Lemma mf_forward_one_prediction :
  one_prediction_per_pair demo_model.
Proof.
  intros p t u i preds. simpl. unfold mf_forward.
  destruct (p_user p) as [| | U]; try discriminate.
  destruct (p_item p) as [| | V]; try discriminate.
  simpl. destruct (mf_predict U V u i) as [d | e]; [| discriminate].
  now intros [= <-].
Qed.

Lemma weighted_squared_error_one_loss :
  one_loss_per_example weighted_engine.
Proof.
  intros preds r y confs l Hn Hconf. injection Hconf as <-.
  apply numel_1 in Hn as [d Hd]. simpl. unfold squared_error.
  rewrite Hd. simpl. now intros [= <-].
Qed.

(** On the engine whose objective weights each squared error by the
    rating of its example. *)
Lemma batch_fit_single_examples_as_steps_witness :
  let b := @batch_fit cpu_runtime (List.map single_batch demo_observations) 1
                      weighted_world in
  let s := @for_each Observation (@step_on cpu_runtime) demo_observations
                     weighted_world in
  fst b = fst s
  /\ parameters (model (self (snd b))) = parameters (model (self (snd s)))
  /\ optimizer (self (snd b)) = optimizer (self (snd s))
  /\ grad (model (self (snd b))) = grad (model (self (snd s))).
Proof.
  refine (@batch_fit_single_examples_as_steps cpu_runtime demo_observations
            weighted_world _ _).
  - exact mf_forward_one_prediction.
  - exact weighted_squared_error_one_loss.
Defined.

(** Both runs return there, and the weight has its effect: the ratings 1
    and 3 of the two observations lead to other parameters than the
    unweighted objective does. *)
Example weighted_runs_return :
  fst (@batch_fit cpu_runtime (List.map single_batch demo_observations) 1
                  weighted_world) = Ok tt
  /\ fst (@for_each Observation (@step_on cpu_runtime) demo_observations
                    weighted_world) = Ok tt
  /\ table_values (user_embeddings (model (self (snd
        (@batch_fit cpu_runtime (List.map single_batch demo_observations) 1
                    weighted_world)))))
     = [[-11]; [-46]]%Q
  /\ table_values (user_embeddings (model (self (snd
        (@batch_fit cpu_runtime (List.map single_batch demo_observations) 1
                    demo_world)))))
     = [[-11]; [-14]]%Q.
Proof. vm_compute. repeat split. Qed.

Lemma save_then_load_restores_tables_witness :
  exists w1 w2,
    @save cpu_runtime "model.pt" trained_world = (Ok tt, w1)
    /\ disk w1
       = <[@file_of cpu_runtime "model.pt"
           := state_dict (model (self trained_world))]> (disk trained_world)
    /\ self w1 = self trained_world
    /\ (forall w',
          parameters (model (self w'))
          = parameters (model (self trained_world)) ->
          disk (snd (@save cpu_runtime "model.pt" w'))
            !! @file_of cpu_runtime "model.pt"
          = disk w1 !! @file_of cpu_runtime "model.pt")
    /\ @load cpu_runtime "model.pt" (set_self w1 demo_engine) = (Ok tt, w2)
    /\ user_embeddings (model (self w2)) = Has (table 1 [[-11]; [2]]%Z)
    /\ item_embeddings (model (self w2))
       = Has (table 1 [[1]; [-1]; [2]]%Z)
    /\ extra (model (self w2)) = extra (model (self trained_world))
    /\ objective (self w2) = objective demo_engine
    /\ optimizer (self w2) = optimizer demo_engine
    /\ conf_func (self w2) = conf_func demo_engine
    /\ device (self w2) = device demo_engine.
Proof.
  refine (@save_then_load_restores_tables cpu_runtime "model.pt"
            trained_world demo_engine
            (table 1 [[-11]; [2]]%Z) (table 1 [[1]; [-1]; [2]]%Z)
            (table 1 [[1]; [2]]%Z) (table 1 [[1]; [3]; [2]]%Z)
            _ _ _ _ _ _ _ _); reflexivity.
Defined.

Lemma init_checks_embeddings_witness :
  (user_embeddings demo_model = Missing ->
   @init cpu_runtime demo_model (unweighted squared_error) demo_optimizer
         default_conf_func "cpu" = Raise AttributeError)
  /\ (user_embeddings demo_model = IsNone ->
      @init cpu_runtime demo_model (unweighted squared_error) demo_optimizer
            default_conf_func "cpu" = Raise AssertionError)
  /\ (forall U, user_embeddings demo_model = Has U ->
      item_embeddings demo_model = Missing ->
      @init cpu_runtime demo_model (unweighted squared_error) demo_optimizer
            default_conf_func "cpu" = Raise AttributeError)
  /\ (forall U, user_embeddings demo_model = Has U ->
      item_embeddings demo_model = IsNone ->
      @init cpu_runtime demo_model (unweighted squared_error) demo_optimizer
            default_conf_func "cpu" = Raise AssertionError)
  /\ (forall U V, user_embeddings demo_model = Has U ->
      item_embeddings demo_model = Has V ->
      @init cpu_runtime demo_model (unweighted squared_error) demo_optimizer
            default_conf_func "cpu"
      = Ok (mkStep demo_model (unweighted squared_error) demo_optimizer
                   default_conf_func "cpu")).
Proof.
  apply (@init_checks_embeddings cpu_runtime). reflexivity.
Defined.

(** Construction of the small engine returns it. *)
Example init_demo :
  @init cpu_runtime demo_model (unweighted squared_error) demo_optimizer
        default_conf_func default_device = Ok demo_engine.
Proof. reflexivity. Qed.

(** C6 fails as stated: construction on a model without the user table
    raises an [AttributeError], and on a model whose item table is [None]
    an [AssertionError]; neither is a [MissingEmbeddingError]. *)
Lemma init_missing_table_counterexample :
  @init cpu_runtime model_without_users (unweighted squared_error)
        demo_optimizer default_conf_func default_device
  = Raise AttributeError
  /\ @init cpu_runtime model_without_users (unweighted squared_error)
           demo_optimizer default_conf_func default_device
     <> Raise MissingEmbeddingError
  /\ @init cpu_runtime model_with_none_items (unweighted squared_error)
           demo_optimizer default_conf_func default_device
     = Raise AssertionError.
Proof. repeat split. discriminate. Qed.

Lemma predict_unknown_user_raises_index_error_witness :
  let r := @predict cpu_runtime 5 2 demo_world in
  fst r = Raise IndexError
  /\ parameters (model (self (snd r))) = parameters (model (self demo_world)).
Proof.
  refine (@predict_unknown_user_raises_index_error cpu_runtime 5 2 demo_world
            (table 1 [[1]; [2]]%Z) _ _ _).
  - reflexivity.
  - reflexivity.
  - right. vm_compute. discriminate.
Defined.

(** C7 fails as stated: for user 5 of 2, and for user -1, [predict] raises
    an [IndexError], not an [UnknownUserError]. *)
Lemma predict_unknown_user_counterexample :
  fst (@predict cpu_runtime 5 2 demo_world) = Raise IndexError
  /\ fst (@predict cpu_runtime 5 2 demo_world) <> Raise UnknownUserError
  /\ fst (@predict cpu_runtime (-1) 2 demo_world) = Raise IndexError.
Proof. vm_compute. repeat split. discriminate. Qed.

Lemma predict_returns_top_k_ascending_witness :
  exists ids,
    fst (@predict cpu_runtime 0 2 demo_world) = Ok ids
    /\ length ids = Z.to_nat 2
    /\ List.NoDup ids
    /\ (forall i, In i ids -> i < num_embeddings (table 1 [[1]; [3]; [2]]%Z))
    /\ ascending (item_scores (table 1 [[1]; [2]]%Z)
                              (table 1 [[1]; [3]; [2]]%Z) 0) ids = true
    /\ (forall i j, In i ids ->
          j < num_embeddings (table 1 [[1]; [3]; [2]]%Z) -> ~ In j ids ->
          (nth j (item_scores (table 1 [[1]; [2]]%Z)
                              (table 1 [[1]; [3]; [2]]%Z) 0) 0
           <= nth i (item_scores (table 1 [[1]; [2]]%Z)
                                 (table 1 [[1]; [3]; [2]]%Z) 0) 0)%Qc).
Proof.
  refine (@predict_returns_top_k_ascending cpu_runtime 0 2 demo_world
            (table 1 [[1]; [2]]%Z) (table 1 [[1]; [3]; [2]]%Z)
            _ _ _ _ _ _ _ _).
  - reflexivity.
  - reflexivity.
  - reflexivity.
  - reflexivity.
  - change (0 <= 0 < 2)%Z. lia.
  - change (2 <= 3). lia.
  - change (1 <= 2 <= 3)%Z. lia.
  - vm_compute. reflexivity.
Defined.

(** C1 fails as stated: user 0 scores the items 1, 3 and 2, and
    [predict 0 2] returns item 2 before item 1, the lower score first. *)
Lemma predict_descending_counterexample :
  fst (@predict cpu_runtime 0 2 demo_world) = Ok [2; 1]
  /\ List.map this (item_scores (table 1 [[1]; [2]]%Z)
                                (table 1 [[1]; [3]; [2]]%Z) 0)
     = [1; 3; 2]%Q
  /\ descending (item_scores (table 1 [[1]; [2]]%Z)
                             (table 1 [[1]; [3]; [2]]%Z) 0) [2; 1] = false.
Proof. vm_compute. repeat split. Qed.

(** Outside the range of the theorem: [k = 0] returns every item, since
    [-0] is [0] and the slice starts at the beginning; with a single item
    the scores are squeezed to a 0-dimensional tensor, which cannot be
    sliced. *)
Example predict_k_zero :
  fst (@predict cpu_runtime 0 0 demo_world) = Ok [0; 2; 1].
Proof. vm_compute. reflexivity. Qed.

Example predict_single_item :
  fst (@predict cpu_runtime 0 1 one_item_world) = Raise IndexError.
Proof. vm_compute. reflexivity. Qed.

Lemma batch_fit_column_check_witness :
  let w1 := snd (@for_each (Matrix * Tensor) (@fit_batch cpu_runtime)
                           [batch_of_rows 3 [[1; 2; 1]]%Z [0]%Z]
                           (train_world demo_world)) in
  (ncols (fst two_column_batch) < 3 ->
   @batch_fit cpu_runtime
     ([batch_of_rows 3 [[1; 2; 1]]%Z [0]%Z]
      ++ (fst two_column_batch, snd two_column_batch) :: demo_loader)
     2 demo_world
   = (Raise IndexError, w1))
  /\ (3 <= ncols (fst two_column_batch) ->
      @batch_fit cpu_runtime
        ([batch_of_rows 3 [[1; 2; 1]]%Z [0]%Z]
         ++ (fst two_column_batch, snd two_column_batch) :: demo_loader)
        2 demo_world
      = @batch_fit cpu_runtime
          ([batch_of_rows 3 [[1; 2; 1]]%Z [0]%Z]
           ++ (first_three (fst two_column_batch), snd two_column_batch)
              :: demo_loader)
          2 demo_world).
Proof.
  cbv zeta.
  refine (@batch_fit_column_check cpu_runtime (fst two_column_batch)
            (snd two_column_batch) [batch_of_rows 3 [[1; 2; 1]]%Z [0]%Z]
            demo_loader 2 demo_world _ _ _ _).
  - reflexivity.
  - lia.
  - apply ok_pair. vm_compute. reflexivity.
Defined.

(** C2 fails as stated: a batch of 4 columns is trained on, and the
    parameters move; a batch of 2 columns raises an [IndexError], not a
    [MalformedBatchError]. *)
Lemma batch_fit_four_columns_counterexample :
  let r := @batch_fit cpu_runtime [four_column_batch] 1 demo_world in
  fst r = Ok tt
  /\ table_values (user_embeddings (model (self (snd r)))) = [[-11]; [2]]%Q
  /\ table_values (user_embeddings (model (self demo_world))) = [[1]; [2]]%Q
  /\ parameters (model (self (snd r))) <> parameters (model (self demo_world))
  /\ fst (@batch_fit cpu_runtime [two_column_batch] 1 demo_world)
     = Raise IndexError.
Proof.
  cbv zeta.
  split; [vm_compute; reflexivity |].
  split; [vm_compute; reflexivity |].
  split; [vm_compute; reflexivity |].
  split; [| vm_compute; reflexivity].
  intros H.
  apply (f_equal (fun p => table_values (p_user p))) in H.
  vm_compute in H. discriminate.
Qed.

(** * The further properties at work on the small engine *)

Lemma predict_returns_every_item_witness :
  exists ids,
    fst (@predict cpu_runtime 0 0 demo_world) = Ok ids
    /\ length ids = num_embeddings (table 1 [[1]; [3]; [2]]%Z)
    /\ List.NoDup ids
    /\ (forall i, In i ids <-> i < num_embeddings (table 1 [[1]; [3]; [2]]%Z))
    /\ ascending (item_scores (table 1 [[1]; [2]]%Z)
                              (table 1 [[1]; [3]; [2]]%Z) 0) ids = true.
Proof.
  refine (@predict_returns_every_item cpu_runtime 0 0 demo_world
            (table 1 [[1]; [2]]%Z) (table 1 [[1]; [3]; [2]]%Z)
            _ _ _ _ _ _ _ _).
  - reflexivity.
  - reflexivity.
  - reflexivity.
  - reflexivity.
  - change (0 <= 0 < 2)%Z. lia.
  - change (3 <> 1). lia.
  - left. reflexivity.
  - vm_compute. reflexivity.
Defined.

Lemma predict_single_item_raises_witness :
  fst (@predict cpu_runtime 0 1 one_item_world) = Raise IndexError.
Proof.
  refine (@predict_single_item_raises cpu_runtime 0 1 one_item_world
            (table 1 [[1]; [2]]%Z) (table 1 [[3]]%Z) _ _ _ _ _ _).
  - reflexivity.
  - reflexivity.
  - reflexivity.
  - reflexivity.
  - change (0 <= 0 < 2)%Z. lia.
  - reflexivity.
Defined.


(** The two results, number by number: every item for [k = 0], and the two
    best for [k = -1]. *)
Example predict_edge_values :
  fst (@predict cpu_runtime 0 0 demo_world) = Ok [0; 2; 1]
  /\ fst (@predict cpu_runtime 0 5 demo_world) = Ok [0; 2; 1]
  /\ fst (@predict cpu_runtime 0 (-1) demo_world) = Ok [2; 1]
  /\ fst (@predict cpu_runtime 0 (-7) demo_world) = Ok [].
Proof. vm_compute. repeat split. Qed.

Lemma predict_dimension_mismatch_raises_witness :
  fst (@predict cpu_runtime 0 1 mismatched_world) = Raise RuntimeError.
Proof.
  refine (@predict_dimension_mismatch_raises cpu_runtime 0 1 mismatched_world
            (table 1 [[1]; [2]]%Z) (table 2 [[1; 0]; [0; 1]]%Z) _ _ _ _ _).
  - reflexivity.
  - reflexivity.
  - reflexivity.
  - change (2 <> 1). lia.
  - change (0 <= 0 < 2)%Z. lia.
Defined.

Lemma batch_fit_nothing_to_do_witness :
  @batch_fit cpu_runtime demo_loader (-3) demo_world
  = (Ok tt, train_world demo_world)
  /\ @batch_fit cpu_runtime [] 2 demo_world = (Ok tt, train_world demo_world).
Proof.
  split.
  - apply (@batch_fit_nothing_to_do cpu_runtime). left. lia.
  - apply (@batch_fit_nothing_to_do cpu_runtime). right. reflexivity.
Defined.

Lemma batch_fit_epochs_add_witness :
  @batch_fit cpu_runtime demo_loader (1 + 2) demo_world
  = (@batch_fit cpu_runtime demo_loader 1 ;;;
     @batch_fit cpu_runtime demo_loader 2) demo_world.
Proof.
  apply (@batch_fit_epochs_add cpu_runtime demo_loader 1 2 demo_world); lia.
Defined.

Lemma batch_fit_stops_at_failing_batch_witness :
  let w1 := snd (@for_each (Matrix * Tensor) (@fit_batch cpu_runtime)
                           [batch_of_rows 3 [[1; 2; 1]]%Z [0]%Z]
                           (train_world demo_world)) in
  let w2 := snd (@fit_batch cpu_runtime two_column_batch w1) in
  @batch_fit cpu_runtime
    ([batch_of_rows 3 [[1; 2; 1]]%Z [0]%Z] ++ two_column_batch :: demo_loader)
    2 demo_world = (Raise IndexError, w2)
  /\ updates (trace w1)
     = updates (trace demo_world)
       + length [batch_of_rows 3 [[1; 2; 1]]%Z [0]%Z]
  /\ ((updates (trace w2) = updates (trace w1)
       /\ model (self w2) = model (self w1)
       /\ optimizer (self w2) = optimizer (self w1))
      \/ updates (trace w2) = S (updates (trace w1))).
Proof.
  cbv zeta.
  refine (@batch_fit_stops_at_failing_batch cpu_runtime
            [batch_of_rows 3 [[1; 2; 1]]%Z [0]%Z] demo_loader
            two_column_batch 2 demo_world _ _ IndexError _ _ _).
  - lia.
  - apply ok_pair. vm_compute. reflexivity.
  - apply raise_pair. vm_compute. reflexivity.
Defined.


(** There the failure is the model's, on item 7 of 3: the optimizer was
    not reached. With the optimizer whose [step()] raises, it was. *)
Example step_raise_cases :
  updates (trace (snd (@step cpu_runtime (Vector [qz 0]) (Vector [qz 7])
                             (Some (Vector [qz 1])) (Some (Vector [qz 1]))
                             demo_world))) = 0
  /\ fst (@step cpu_runtime (Vector [qz 0]) (Vector [qz 1])
                (Some (Vector [qz 1])) (Some (Vector [qz 1]))
                closure_world) = Raise TypeError
  /\ updates (trace (snd (@step cpu_runtime (Vector [qz 0]) (Vector [qz 1])
                                (Some (Vector [qz 1])) (Some (Vector [qz 1]))
                                closure_world))) = 1.
Proof. vm_compute. repeat split. Qed.

Lemma optimizer_returns_demo : optimizer_returns demo_optimizer.
Proof.
  split.
  - intros s p g. simpl. unfold sgd.
    destruct (sgd_table _ _ _) as [u g1]. destruct (sgd_table _ _ _) as [i g2].
    now destruct (sgd_row _ _ _).
  - reflexivity.
Qed.

Lemma step_raises_where_batch_fit_averages_witness :
  let users := column_values two_example_features 0 in
  let items := column_values two_example_features 1 in
  let rtngs := column_values two_example_features 2 in
  let prefs := Vector [qz 1; qz 0] in
  let s := @step cpu_runtime users items (Some rtngs) (Some prefs)
                 demo_world in
  fst s = Raise RuntimeError
  /\ trace (snd s) = trace demo_world ++ [EvForward users items]
  /\ parameters (model (self (snd s))) = parameters (model (self demo_world))
  /\ optimizer (self (snd s)) = optimizer (self demo_world)
  /\ (optimizer_returns (optimizer (self demo_world)) ->
      fst (@batch_fit cpu_runtime [(two_example_features, prefs)] 1
                      demo_world) = Ok tt)
  /\ updates (trace (snd (@batch_fit cpu_runtime
                            [(two_example_features, prefs)] 1 demo_world)))
     = S (updates (trace demo_world)).
Proof.
  cbv zeta.
  eapply (@step_raises_where_batch_fit_averages cpu_runtime
            two_example_features (Vector [qz 1; qz 0]) demo_world).
  - reflexivity.
  - change (3 <= 3). lia.
  - vm_compute. reflexivity.
  - reflexivity.
  - vm_compute. reflexivity.
  - vm_compute. discriminate.
Defined.

Lemma step_ignores_rating_witness :
  @step cpu_runtime (Vector [qz 0]) (Vector [qz 1]) (Some (Vector [qz 1]))
        (Some (Vector [qz 1]))
        (mkWorld (mkStep demo_model (unweighted squared_error) demo_optimizer
                         rating_as_confidence default_device) ∅ [])
  = @step cpu_runtime (Vector [qz 0]) (Vector [qz 1]) (Some (Vector [qz 9]))
          (Some (Vector [qz 1]))
          (mkWorld (mkStep demo_model (unweighted squared_error)
                           demo_optimizer rating_as_confidence default_device)
                   ∅ []).
Proof.
  apply (@step_ignores_rating cpu_runtime). left.
  split; [reflexivity |]. split; eexists; reflexivity.
Defined.

Lemma step_leaves_injected_weight_witness :
  let w' := snd (@step cpu_runtime (Vector [qz 0]) (Vector [qz 1])
                       (Some (Vector [qz 3])) (Some (Vector [qz 1]))
                       weighted_world) in
  exists confs,
    conf_func (self weighted_world) (Vector [qz 3]) = Ok confs
    /\ objective (self w')
       = injected (objective (self weighted_world)) confs
    /\ hasattr_weight (objective (self w'))
       = hasattr_weight (objective (self weighted_world)).
Proof.
  cbv zeta.
  refine (@step_leaves_injected_weight cpu_runtime (Vector [qz 0])
            (Vector [qz 1]) (Vector [qz 3]) (Vector [qz 1]) _ _ _).
  apply ok_pair. vm_compute. reflexivity.
Defined.

Lemma step_optimizer_raise_keeps_gradient_witness :
  exists d s p,
    let r := @step cpu_runtime (Vector [qz 0]) (Vector [qz 1])
                   (Some (Vector [qz 1])) (Some (Vector [qz 1]))
                   closure_world in
    fst r = Raise TypeError
    /\ trace (snd r)
       = trace closure_world
         ++ [EvForward (Vector [qz 0]) (Vector [qz 1]); EvBackward; EvOptStep]
    /\ grad (model (self (snd r)))
       = gadd (grad (model (self closure_world))) (der d)
    /\ parameters (model (self (snd r))) = p
    /\ opt_state (optimizer (self (snd r))) = s.
Proof.
  do 3 eexists.
  eapply (@step_optimizer_raise_keeps_gradient cpu_runtime (Vector [qz 0])
            (Vector [qz 1]) (Vector [qz 1]) (Vector [qz 1]) closure_world).
  - reflexivity.
  - vm_compute; reflexivity.
  - reflexivity.
  - vm_compute; reflexivity.
  - vm_compute; reflexivity.
  - vm_compute; reflexivity.
Defined.

(** The gradient left behind there, number by number: it is the gradient
    of the squared error of this call, not cleared. *)
Example step_optimizer_raise_gradient :
  List.map this (grad (model (self (snd
     (@step cpu_runtime (Vector [qz 0]) (Vector [qz 1])
            (Some (Vector [qz 1])) (Some (Vector [qz 1])) closure_world)))))
  = [12; 0; 0; 4; 0]%Q.
Proof. vm_compute. reflexivity. Qed.

Lemma load_missing_file_raises_witness :
  @load cpu_runtime "nowhere.pt" demo_world
  = (Raise FileNotFoundError, demo_world).
Proof.
  apply (@load_missing_file_raises cpu_runtime). apply lookup_empty.
Defined.

Lemma load_shape_mismatch_is_partial_witness :
  let r := @load cpu_runtime "model.pt" stale_file_world in
  fst r = Raise RuntimeError
  /\ user_embeddings (model (self (snd r))) = Has (table 1 [[1]; [2]]%Z)
  /\ item_embeddings (model (self (snd r)))
     = Has (table 1 [[4]; [5]; [6]]%Z)
  /\ extra (model (self (snd r))) = sd_extra stale_state
  /\ optimizer (self (snd r)) = optimizer (self stale_file_world).
Proof.
  refine (@load_shape_mismatch_is_partial cpu_runtime "model.pt"
            stale_file_world
            stale_state (table 1 [[1]; [2]]%Z) (table 1 [[1]; [3]; [2]]%Z)
            (table 1 [[5]; [6]; [7]]%Z) (table 1 [[4]; [5]; [6]]%Z)
            _ _ _ _ _ _ _ _).
  - apply lookup_insert_eq.
  - reflexivity.
  - reflexivity.
  - reflexivity.
  - reflexivity.
  - reflexivity.
  - reflexivity.
  - reflexivity.
Defined.

Lemma save_then_load_same_engine_witness :
  fst (@save cpu_runtime "model.pt" trained_world) = Ok tt
  /\ @load cpu_runtime "model.pt" (snd (@save cpu_runtime "model.pt"
                                              trained_world))
     = (Ok tt, snd (@save cpu_runtime "model.pt" trained_world)).
Proof.
  apply (@save_then_load_same_engine cpu_runtime). reflexivity.
Defined.

(** Saving to "./a.pt": "a.pt" names the same file, "b.pt" another one. *)
Lemma save_writes_one_file_witness :
  @file_of cpu_runtime "a.pt" = @file_of cpu_runtime "./a.pt"
  /\ fst (@save cpu_runtime "./a.pt" trained_world) = Ok tt
  /\ disk (snd (@save cpu_runtime "./a.pt" trained_world))
       !! @file_of cpu_runtime "a.pt"
     = Some (state_dict (model (self trained_world)))
  /\ disk (snd (@save cpu_runtime "./a.pt" trained_world))
       !! @file_of cpu_runtime "b.pt"
     = disk trained_world !! @file_of cpu_runtime "b.pt"
  /\ @save cpu_runtime "/readonly/a.pt" trained_world
     = (Raise RuntimeError, trained_world).
Proof.
  pose proof (@save_writes_one_file cpu_runtime "./a.pt" "a.pt" trained_world)
    as (_ & _ & _ & _ & Hsame).
  pose proof (@save_writes_one_file cpu_runtime "./a.pt" "b.pt" trained_world)
    as (_ & _ & _ & Hother & _).
  pose proof (@save_writes_one_file cpu_runtime "/readonly/a.pt" "a.pt"
                trained_world) as (_ & _ & Hro & _).
  split; [reflexivity |].
  destruct (Hsame eq_refl eq_refl) as [H1 H2].
  split; [exact H1 |]. split; [exact H2 |].
  split; [apply Hother; discriminate | apply Hro; reflexivity].
Defined.

Lemma init_guarantees_tables_witness :
  demo_engine
  = mkStep demo_model (unweighted squared_error) demo_optimizer
           default_conf_func default_device
  /\ @available cpu_runtime default_device = true
  /\ (exists U V, user_embeddings demo_model = Has U
                  /\ item_embeddings demo_model = Has V)
  /\ (forall user k dk tr,
        let r := fst (@predict cpu_runtime user k (mkWorld demo_engine dk tr))
        in
        (exists ids, r = Ok ids) \/ r = Raise IndexError
        \/ r = Raise RuntimeError).
Proof.
  apply (@init_guarantees_tables cpu_runtime demo_model
           (unweighted squared_error) demo_optimizer default_conf_func
           default_device demo_engine).
  reflexivity.
Defined.
